(** * Geospatial Explorer: GeoJSON conversion and field classification

    A shallow embedding of the data-transformation core of
    [src/gis-explorer.js]: the GeoJSON-to-graphic conversion and field-type
    detection of [addGeoJSONToMap], the frequency statistics of
    [analyzeFieldValues], and the unique-value renderer built by
    [applyFieldClassification] with the colours of [generateColors]; and,
    around that core, of [resetLayerRenderer], [openClassificationPanel],
    [showFieldStatistics], [createMapLegend], the checks of
    [handleFileUpload] and [processGeoJSON], the attribute copy of
    [addShapefileToMap] and the choice of the hit in the map click handler.

    The first half of the file holds the definitions, the second half the
    lemmas and theorems about them. *)

From Stdlib Require Import List String Ascii Bool ZArith NArith PeanoNat Lia.
From Stdlib Require Import Permutation Sorted DecimalString.
Import ListNotations.

Set Warnings "-register-all".

Local Open Scope string_scope.
Local Open Scope list_scope.
Local Open Scope nat_scope.

(* ================================================================== *)
(** * The JavaScript values the program handles *)
(* ================================================================== *)

Module JS.

(** ** Numbers

    A finite non-zero Number is kept as the decimal its own printing
    determines: sign, decimal mantissa [m] and exponent [e], standing for
    [m * 10^e].  The printed digits of a double identify it, and a double is
    integral exactly when that decimal is, so [Number.isInteger] and
    [String] can both be computed on this form. *)

Inductive number : Type :=
| NaN
| Infinity (negative : bool)
| Zero (negative : bool)
| Decimal (negative : bool) (m : positive) (e : Z).

Definition of_Z (z : Z) : number :=
  match z with
  | Z0 => Zero false
  | Zpos p => Decimal false p 0
  | Zneg p => Decimal true p 0
  end.

Definition of_nat (n : nat) : number := of_Z (Z.of_nat n).

Definition digits (m : positive) : list ascii :=
  list_ascii_of_string (NilEmpty.string_of_uint (Pos.to_uint m)).

Definition is_zero_digit (c : ascii) : bool := Ascii.eqb c "0"%char.

Fixpoint drop_zeros (l : list ascii) : list ascii :=
  match l with
  | c :: l' => if is_zero_digit c then drop_zeros l' else l
  | [] => []
  end.

Definition strip_trailing_zeros (l : list ascii) : list ascii :=
  rev (drop_zeros (rev l)).

(** [significand m e] is the digit string [s] and the exponent [n] that the
    language definition of Number printing works with: the number is
    [0.s * 10^n], and [s] has no trailing zero. *)
Definition significand (m : positive) (e : Z) : list ascii * Z :=
  let ds := digits m in
  (strip_trailing_zeros ds, e + Z.of_nat (List.length ds))%Z.

Definition isNaN (x : number) : bool :=
  match x with NaN => true | _ => false end.

(** [Number.isInteger] *)
Definition isInteger (x : number) : bool :=
  match x with
  | NaN | Infinity _ => false
  | Zero _ => true
  | Decimal _ m e =>
      let '(s, n) := significand m e in (Z.of_nat (List.length s) <=? n)%Z
  end.

Definition zeros (n : Z) : string :=
  string_of_list_ascii (repeat "0"%char (Z.to_nat n)).

Definition unsigned_decimal (z : Z) : string :=
  match z with
  | Z0 => "0"
  | Zpos p | Zneg p => string_of_list_ascii (digits p)
  end.

(** [String(x)] for a Number [x] (Number::toString, radix 10). *)
Definition String_number (x : number) : string :=
  match x with
  | NaN => "NaN"
  | Zero _ => "0"
  | Infinity negative => ((if negative then "-" else "") ++ "Infinity")%string
  | Decimal negative m e =>
      let '(s, n) := significand m e in
      let k := Z.of_nat (List.length s) in
      let txt (l : list ascii) := string_of_list_ascii l in
      ((if negative then "-" else "") ++
      (if ((k <=? n) && (n <=? 21))%Z then
         txt s ++ zeros (n - k)
       else if ((0 <? n) && (n <=? 21))%Z then
         txt (firstn (Z.to_nat n) s) ++ "." ++ txt (skipn (Z.to_nat n) s)
       else if ((-6 <? n) && (n <=? 0))%Z then
         "0." ++ zeros (- n) ++ txt s
       else
         let exponent :=
           (if (n - 1 <? 0)%Z then "-" else "+") ++ unsigned_decimal (n - 1) in
         if (k =? 1)%Z then txt s ++ "e" ++ exponent
         else txt (firstn 1 s) ++ "." ++ txt (skipn 1 s) ++ "e" ++ exponent))%string
  end.

(** ** Scalar values: what a GeoJSON property or a graphic attribute holds *)

Inductive value : Type :=
| VUndefined
| VNull
| VBool (b : bool)
| VNum (x : number)
| VStr (s : string).

(** [String(v)] *)
Definition String (v : value) : string :=
  match v with
  | VUndefined => "undefined"
  | VNull => "null"
  | VBool true => "true"
  | VBool false => "false"
  | VNum x => String_number x
  | VStr s => s
  end.

(** [typeof v === 'number' && !isNaN(v)] *)
Definition is_real_number (v : value) : bool :=
  match v with
  | VNum x => negb (isNaN x)
  | _ => false
  end.

(** ** Strings *)

Definition lower_ascii (c : ascii) : ascii :=
  let n := nat_of_ascii c in
  if ((65 <=? n) && (n <=? 90))%nat then ascii_of_nat (n + 32) else c.

(** [s.toLowerCase()].  Only the letters A-Z are mapped; no character
    outside ASCII lower-cases to an ASCII letter that occurs in a geometry
    type name, so the [switch] of the conversion sees the same cases. *)
Fixpoint toLowerCase (s : string) : string :=
  match s with
  | EmptyString => EmptyString
  | String.String c s' => String.String (lower_ascii c) (toLowerCase s')
  end.

(** ** Arrays: [Array.prototype.sort]

    The sort is stable; with a comparator [cmp], [a] stays in front of [b]
    when [cmp a b <= 0].  Insertion from the right end produces that
    order. *)

Section Sort.
Context {A : Type} (cmp : A -> A -> Z).

Fixpoint sort_insert (a : A) (l : list A) : list A :=
  match l with
  | [] => [a]
  | b :: l' => if (cmp a b <=? 0)%Z then a :: b :: l' else b :: sort_insert a l'
  end.

Fixpoint sort (l : list A) : list A :=
  match l with
  | [] => []
  | a :: l' => sort_insert a (sort l')
  end.
End Sort.

(** ** Plain objects used as string-keyed tables

    An object is the list of its own properties in creation order.  Only
    own properties are represented: what [{}] inherits from
    [Object.prototype] is not part of the table. *)

Definition object (A : Type) : Type := list (string * A).

Section Object.
Context {A : Type}.

(** [o[k]]; [None] is [undefined] *)
Fixpoint get (o : object A) (k : string) : option A :=
  match o with
  | [] => None
  | (k', v) :: o' => if String.eqb k k' then Some v else get o' k
  end.

(** [o[k] = v]: an existing property keeps its place *)
Fixpoint set (o : object A) (k : string) (v : A) : object A :=
  match o with
  | [] => [(k, v)]
  | (k', v') :: o' =>
      if String.eqb k k' then (k, v) :: o' else (k', v') :: set o' k v
  end.

Definition is_digit (c : ascii) : bool :=
  let n := nat_of_ascii c in ((48 <=? n) && (n <=? 57))%nat.

Fixpoint decimal_value (s : string) (acc : N) : option N :=
  match s with
  | EmptyString => Some acc
  | String.String c s' =>
      if is_digit c
      then decimal_value s' (acc * 10 + (N_of_ascii c - 48))%N
      else None
  end.

(** [array_index k]: the number [k] spells when [k] is an array index,
    a canonical decimal numeral below [2^32 - 1]. *)
Definition array_index (k : string) : option N :=
  match k with
  | EmptyString => None
  | String.String c rest =>
      if is_zero_digit c && negb (String.eqb rest EmptyString) then None
      else match decimal_value k 0 with
           | Some i => if (i <? 2 ^ 32 - 1)%N then Some i else None
           | None => None
           end
  end.

Definition is_array_index (k : string) : bool :=
  match array_index k with Some _ => true | None => false end.

Definition index_of (e : string * A) : Z :=
  match array_index (fst e) with
  | Some i => Z.of_N i
  | None => 0%Z
  end.

(** [Object.entries(o)]: own properties in property order, array-index
    keys first in ascending numeric order, then the other keys in
    creation order. *)
Definition entries (o : object A) : list (string * A) :=
  sort (fun a b => (index_of a - index_of b)%Z)
       (filter (fun e => is_array_index (fst e)) o)
  ++ filter (fun e => negb (is_array_index (fst e))) o.

(** [Object.keys(o)] *)
Definition keys (o : object A) : list string := map fst (entries o).

(** [{ ...base, ...o }]: copy the own properties of [o], in property
    order, onto [base]. *)
Definition spread (base o : object A) : object A :=
  fold_left (fun acc e => set acc (fst e) (snd e)) (entries o) base.
End Object.

End JS.

Import JS.

(* ================================================================== *)
(** * Code that can throw *)
(* ================================================================== *)

(** A computation either returns a value or throws; [Thrown] is an uncaught
    [TypeError] on its way to the enclosing [catch]. *)
Inductive outcome (A : Type) : Type :=
| Returned (a : A)
| Thrown.

Arguments Returned {A} a.
Arguments Thrown {A}.

Definition bind {A B : Type} (c : outcome A) (k : A -> outcome B) : outcome B :=
  match c with
  | Returned a => k a
  | Thrown => Thrown
  end.

Notation "x <- c ;; k" := (bind c (fun x => k))
  (at level 61, c at next level, right associativity).

(* ================================================================== *)
(** * Data of the GeoJSON upload path *)
(* ================================================================== *)

(** Coordinates as parsed from GeoJSON: numbers nested in arrays.  The code
    never checks their shape. *)
Inductive coords : Type :=
| Num (x : number)
| Arr (items : list coords).

Record Geometry : Type := {
  geometry_type : string;          (* [geometry.type] *)
  coordinates : coords             (* [geometry.coordinates] *)
}.

Record Feature : Type := {
  geometry : option Geometry;              (* absent or [null]: [None] *)
  properties : option (object value)       (* absent or [null]: [None] *)
}.

(** The geometry handed to the mapping SDK.  Every one of them carries
    [spatialReference: { wkid: 4326 }]. *)
Inductive EsriGeometry : Type :=
| EsriPoint (longitude latitude : option coords)
| EsriPolyline (paths : coords)
| EsriPolygon (rings : coords)
| EsriMultipoint (points : coords).

Definition esri_type (g : EsriGeometry) : string :=
  match g with
  | EsriPoint _ _ => "point"
  | EsriPolyline _ => "polyline"
  | EsriPolygon _ => "polygon"
  | EsriMultipoint _ => "multipoint"
  end.

Definition wkid (g : EsriGeometry) : Z := 4326.

Record Graphic : Type := {
  graphic_geometry : option EsriGeometry;   (* [graphic.geometry], [None] is [null] *)
  attributes : object value
}.

Record Field : Type := {
  name : string;
  alias : string;
  field_type : string
}.

Inductive Symbol : Type :=
| SimpleMarker (color : list number) (size : number)
               (outline_color : list number) (outline_width : number)
| SimpleLine (color : list number) (width : number)
| SimpleFill (color : list number)
             (outline_color : list number) (outline_width : number).

Record UniqueValueInfo : Type := {
  info_value : string;
  info_symbol : Symbol;
  info_label : string
}.

(** The text of [defaultLabel]: the program only ever uses the Arabic word
    for "other". *)
Inductive Label : Type :=
| LabelOther.

Inductive Renderer : Type :=
| SimpleRenderer (symbol : Symbol)
| UniqueValueRenderer (field : string) (uniqueValueInfos : list UniqueValueInfo)
                      (defaultSymbol : Symbol) (defaultLabel : Label).

Record FeatureLayer : Type := {
  source : list Graphic;
  fields : list Field;
  objectIdField : string;
  geometryType : string;
  title : string;
  popupEnabled : bool;
  renderer : Renderer
}.

Definition set_renderer (l : FeatureLayer) (r : Renderer) : FeatureLayer :=
  {| source := source l; fields := fields l; objectIdField := objectIdField l;
     geometryType := geometryType l; title := title l;
     popupEnabled := popupEnabled l; renderer := r |}.

(* ================================================================== *)
(** * [addGeoJSONToMap]: GeoJSON features to graphics, fields and a layer *)
(* ================================================================== *)

(** [c[i]] on parsed coordinates; [None] is [undefined]. *)
Definition item (c : coords) (i : nat) : option coords :=
  match c with
  | Arr l => nth_error l i
  | Num _ => None
  end.

(** [c.forEach(f)] with an accumulator: a number has no [forEach]. *)
Definition forEach {S : Type} (c : coords) (f : S -> coords -> outcome S)
    (init : S) : outcome S :=
  match c with
  | Arr l => fold_left (fun acc x => s <- acc ;; f s x) l (Returned init)
  | Num _ => Thrown
  end.

(** The [multipolygon] case: collect every ring of every polygon part. *)
Definition flatten_rings (c : coords) : outcome (list coords) :=
  forEach c
    (fun allRings polygon =>
       forEach polygon (fun allRings ring => Returned (allRings ++ [ring])) allRings)
    [].

(** The [switch] on [feature.geometry.type.toLowerCase()]. *)
Definition convertGeometry (g : option Geometry) : outcome (option EsriGeometry) :=
  match g with
  | None => Returned None
  | Some g =>
      let t := toLowerCase (geometry_type g) in
      let c := coordinates g in
      if String.eqb t "point" then
        Returned (Some (EsriPoint (item c 0) (item c 1)))
      else if String.eqb t "linestring" then
        Returned (Some (EsriPolyline (Arr [c])))
      else if String.eqb t "polygon" then
        Returned (Some (EsriPolygon c))
      else if String.eqb t "multipoint" then
        Returned (Some (EsriMultipoint c))
      else if String.eqb t "multilinestring" then
        Returned (Some (EsriPolyline c))
      else if String.eqb t "multipolygon" then
        allRings <- flatten_rings c ;;
        Returned (Some (EsriPolygon (Arr allRings)))
      else
        Returned None   (* warning logged, geometry stays null *)
  end.

(** [{ OBJECTID: index + 1, FID: index + 1, ...feature.properties }] *)
Definition makeAttributes (index : nat) (f : Feature) : object value :=
  let base := [("OBJECTID", VNum (of_nat (index + 1)));
               ("FID", VNum (of_nat (index + 1)))] in
  match properties f with
  | Some p => spread base p
  | None => base
  end.

(** The callback of [geoJSONData.features.map]. *)
Definition toGraphic (index : nat) (f : Feature) : outcome Graphic :=
  g <- convertGeometry (geometry f) ;;
  Returned {| graphic_geometry := g; attributes := makeAttributes index f |}.

(** [features.map(callback)], started at position [index]. *)
Fixpoint mapGraphics (index : nat) (fs : list Feature) : outcome (list Graphic) :=
  match fs with
  | [] => Returned []
  | f :: fs' =>
      g <- toGraphic index f ;;
      gs <- mapGraphics (index + 1) fs' ;;
      Returned (g :: gs)
  end.

(** [graphic !== null && graphic.geometry !== null] *)
Definition has_geometry (g : Graphic) : bool :=
  match graphic_geometry g with Some _ => true | None => false end.

Definition graphicsFrom (index : nat) (fs : list Feature) : outcome (list Graphic) :=
  gs <- mapGraphics index fs ;;
  Returned (filter has_geometry gs).

(** [const graphics = geoJSONData.features.map(...).filter(...)] *)
Definition graphicsOf (fs : list Feature) : outcome (list Graphic) :=
  graphicsFrom 0 fs.

(** *** Field types *)

(** The two flags of the scan over all features for one key. *)
Record scan : Type := { hasNumber : bool; hasDecimal : bool }.

(** One step of [features.forEach]: reading [feature.properties[key]]
    throws when [properties] is [null]. *)
Definition scanFeature (key : string) (s : scan) (f : Feature) : outcome scan :=
  match properties f with
  | None => Thrown
  | Some p =>
      let value := match get p key with Some v => v | None => VUndefined end in
      match value with
      | VNum x =>
          if negb (isNaN x) then
            Returned {| hasNumber := true;
                        hasDecimal := if negb (isInteger x) then true else hasDecimal s |}
          else Returned s
      | _ => Returned s
      end
  end.

Definition scanFeatures (key : string) (fs : list Feature) : outcome scan :=
  fold_left (fun acc f => s <- acc ;; scanFeature key s f) fs
            (Returned {| hasNumber := false; hasDecimal := false |}).

(** The type chosen for the field [key] after the scan. *)
Definition fieldTypeOf (key : string) (fs : list Feature) : outcome string :=
  s <- scanFeatures key fs ;;
  Returned (if hasNumber s then (if hasDecimal s then "double" else "integer")
            else "string").

(** [key.replace(/_/g, ' ')] *)
Fixpoint underscores_to_spaces (s : string) : string :=
  match s with
  | EmptyString => EmptyString
  | String.String c s' =>
      String.String (if Ascii.eqb c "_"%char then " "%char else c)
                    (underscores_to_spaces s')
  end.

Fixpoint propertyFields (ks : list string) (fs : list Feature) : outcome (list Field) :=
  match ks with
  | [] => Returned []
  | key :: ks' =>
      fieldType <- fieldTypeOf key fs ;;
      rest <- propertyFields ks' fs ;;
      Returned ({| name := key; alias := underscores_to_spaces key;
                   field_type := fieldType |} :: rest)
  end.

Definition fieldsOf (fs : list Feature) : outcome (list Field) :=
  let fixed := [ {| name := "OBJECTID"; alias := "OBJECTID"; field_type := "oid" |};
                 {| name := "FID"; alias := "FID"; field_type := "integer" |} ] in
  match fs with
  | {| properties := Some p |} :: _ =>
      more <- propertyFields (keys p) fs ;;
      Returned (fixed ++ more)
  | _ => Returned fixed
  end.

(** *** Layer geometry type and starting renderer *)

Definition geometryTypeOf (fs : list Feature) : string :=
  match fs with
  | {| geometry := Some g |} :: _ =>
      let t := toLowerCase (geometry_type g) in
      if String.eqb t "point" || String.eqb t "multipoint" then "point"
      else if String.eqb t "linestring" || String.eqb t "multilinestring" then "polyline"
      else "polygon"
  | _ => "polygon"
  end.

Definition rgb (r g b : Z) : list number := [of_Z r; of_Z g; of_Z b].

Definition layerColors : list (list number) :=
  [ rgb 59 130 246; rgb 20 184 166; rgb 249 115 22; rgb 139 92 246; rgb 34 197 94 ].

(** [createCustomRenderer(geometryType)], with [uploaded] the current
    [uploadedLayers.length]. *)
Definition createCustomRenderer (uploaded : nat) (geometryType : string) : Renderer :=
  let color := nth (uploaded mod List.length layerColors) layerColors [] in
  if String.eqb geometryType "esriGeometryPoint" then
    SimpleRenderer (SimpleMarker color (of_Z 8) (rgb 255 255 255) (of_Z 2))
  else if String.eqb geometryType "esriGeometryPolyline" then
    SimpleRenderer (SimpleLine color (of_Z 3))
  else
    SimpleRenderer (SimpleFill (color ++ [Decimal false 3 (-1)]) color (of_Z 2)).

Definition upper_ascii (c : ascii) : ascii :=
  let n := nat_of_ascii c in
  if ((97 <=? n) && (n <=? 122))%nat then ascii_of_nat (n - 32) else c.

(** [s.charAt(0).toUpperCase() + s.slice(1)] *)
Definition capitalize (s : string) : string :=
  match s with
  | EmptyString => EmptyString
  | String.String c s' => String.String (upper_ascii c) s'
  end.

(** The layer [addGeoJSONToMap] constructs.  [layerName] empty stands for a
    missing or empty name; [uploaded] is [uploadedLayers.length]. *)
Definition geoJSONLayer (uploaded : nat) (fs : list Feature) (layerName : string)
  : outcome FeatureLayer :=
  graphics <- graphicsOf fs ;;
  fields <- fieldsOf fs ;;
  let geometryType := geometryTypeOf fs in
  Returned
    {| source := graphics;
       fields := fields;
       objectIdField := "OBJECTID";
       geometryType := geometryType;
       title := if String.eqb layerName "" then "GeoJSON Layer" else layerName;
       popupEnabled := false;
       renderer := createCustomRenderer uploaded
                     ("esriGeometry" ++ capitalize geometryType)%string |}.

(* ================================================================== *)
(** * [analyzeFieldValues]: frequency statistics of one field *)
(* ================================================================== *)

Record FieldStats : Type := {
  totalFeatures : nat;
  validCount : nat;
  uniqueCount : nat;
  sortedValues : list (string * nat);
  fieldName : string
}.

(** [results.features.map(feature => feature.attributes[fieldName])] *)
Definition fieldValues (features : list Graphic) (fieldName : string) : list value :=
  map (fun feature =>
         match get (attributes feature) fieldName with
         | Some v => v
         | None => VUndefined
         end) features.

(** [value !== null && value !== undefined && value !== ''] *)
Definition is_valid (v : value) : bool :=
  match v with
  | VNull | VUndefined => false
  | VStr s => negb (String.eqb s "")
  | _ => true
  end.

Definition validValues (values : list value) : list value :=
  filter is_valid values.

(** One step of the tally:
    [valueCount[key] = (valueCount[key] || 0) + 1] with [key = String(value)] *)
Definition countValue (valueCount : object nat) (v : value) : object nat :=
  let key := String v in
  let previous := match get valueCount key with Some n => n | None => 0 end in
  set valueCount key (previous + 1).

Definition valueCount (valid : list value) : object nat :=
  fold_left countValue valid [].

(** The comparator [(a, b) => b[1] - a[1]] *)
Definition byCountDescending (a b : string * nat) : Z :=
  (Z.of_nat (snd b) - Z.of_nat (snd a))%Z.

(** [Object.entries(valueCount).sort((a, b) => b[1] - a[1])] *)
Definition sortedBuckets (valid : list value) : list (string * nat) :=
  sort byCountDescending (entries (valueCount valid)).

(** The body of [analyzeFieldValues] after the query has answered with
    [features]. *)
Definition fieldStatistics (features : list Graphic) (fieldName : string)
  : option FieldStats :=
  if List.length features =? 0 then None
  else
    let values := fieldValues features fieldName in
    let valid := validValues values in
    Some {| totalFeatures := List.length features;
            validCount := List.length valid;
            uniqueCount := List.length (keys (valueCount valid));
            sortedValues := firstn 20 (sortedBuckets valid);
            fieldName := fieldName |}.

(** The attribute query is answered by the mapping SDK; [None] is a
    rejected query, which [analyzeFieldValues] catches and turns into
    [null]. *)
Definition Query : Type := FeatureLayer -> string -> option (list Graphic).

Definition analyzeFieldValues (queryFeatures : Query)
    (layer : FeatureLayer) (fieldName : string) : option FieldStats :=
  match queryFeatures layer fieldName with
  | Some features => fieldStatistics features fieldName
  | None => None
  end.

(* ================================================================== *)
(** * [applyFieldClassification]: the unique-value renderer *)
(* ================================================================== *)

Definition palette : list (list number) :=
  [ rgb 59 130 246;  rgb 34 197 94;   rgb 249 115 22;  rgb 139 92 246;
    rgb 236 72 153;  rgb 20 184 166;  rgb 245 158 11;  rgb 239 68 68;
    rgb 156 163 175; rgb 16 185 129;  rgb 124 58 237;  rgb 217 70 239;
    rgb 14 165 233;  rgb 34 197 94;   rgb 251 146 60;  rgb 244 63 94;
    rgb 168 85 247;  rgb 59 130 246;  rgb 16 185 129;  rgb 245 158 11 ].

(** [generateColors(count)]: the loop pushes [colors[i % colors.length]]
    for [i = 0 .. count - 1]. *)
Definition generateColors (count : nat) : list (list number) :=
  map (fun i => nth (i mod List.length palette) palette []) (seq 0 count).

(** The symbol of one class, by layer geometry type. *)
Definition classSymbol (layerGeometryType : string) (color : list number) : Symbol :=
  if String.eqb layerGeometryType "point" then
    SimpleMarker color (of_Z 8) (rgb 255 255 255) (of_Z 1)
  else if String.eqb layerGeometryType "polyline" then
    SimpleLine color (of_Z 3)
  else
    SimpleFill (color ++ [Decimal false 7 (-1)]) color (of_Z 2).

(** [createDefaultSymbol(geometryType)] *)
Definition createDefaultSymbol (geometryType : string) : Symbol :=
  let gray (alpha : positive) := rgb 128 128 128 ++ [Decimal false alpha (-1)] in
  if String.eqb geometryType "point" then
    SimpleMarker (gray 8%positive) (of_Z 6) (rgb 255 255 255) (of_Z 1)
  else if String.eqb geometryType "polyline" then
    SimpleLine (gray 8%positive) (of_Z 2)
  else
    SimpleFill (gray 5%positive) (rgb 128 128 128) (of_Z 1).

(** [array.map((x, index) => f(x, index))], started at [index]. *)
Fixpoint mapWithIndex {A B : Type} (f : A -> nat -> B) (index : nat) (l : list A)
  : list B :=
  match l with
  | [] => []
  | x :: l' => f x index :: mapWithIndex f (index + 1) l'
  end.

(** The callback of [stats.sortedValues.map] *)
Definition uniqueValueInfo (layerGeometryType : string)
    (colors : list (list number)) (entry : string * nat) (index : nat)
  : UniqueValueInfo :=
  let '(value, count) := entry in
  let color := nth index colors [] in
  {| info_value := value;
     info_symbol := classSymbol layerGeometryType color;
     info_label := (value ++ " (" ++ String_number (of_nat count) ++ ")")%string |}.

(** The renderer object assembled for [fieldName] from the statistics. *)
Definition classificationRenderer (stats : FieldStats) (layerGeometryType : string)
    (fieldName : string) : Renderer :=
  let colors := generateColors (List.length (sortedValues stats)) in
  UniqueValueRenderer fieldName
    (mapWithIndex (uniqueValueInfo layerGeometryType colors) 0 (sortedValues stats))
    (createDefaultSymbol layerGeometryType)
    LabelOther.

(** The base colour of a class symbol: the marker or line colour, and for a
    fill the outline colour (the fill itself is that colour with opacity
    0.7 appended). *)
Definition symbol_color (s : Symbol) : list number :=
  match s with
  | SimpleMarker color _ _ _ => color
  | SimpleLine color _ => color
  | SimpleFill _ outline_color _ => outline_color
  end.

(** ** The page state the classification handlers work on *)

(** The messages shown with [alert]. *)
Inductive Alert : Type :=
| AlertChooseField        (* "please choose a field to classify" *)
| AlertNoValidValues      (* "no valid values in the selected field" *)
| AlertApplyFailed.       (* "an error occurred while applying the classification" *)

(** The apply button: its caption is either the resting caption or the
    "applying..." one. *)
Record Button : Type := { busy_caption : bool; disabled : bool }.

(** What [createMapLegend] writes into the legend element.  The
    percentage text of an item is a function of its count and of
    [legend_validCount]. *)
Record Legend : Type := {
  legend_fieldLabel : string;
  legend_items : list (list number * string * nat);
  legend_validCount : nat
}.

Record Page : Type := {
  fieldSelect_value : string;                  (* [fieldSelect.value] *)
  currentClassificationLayer : option nat;     (* a reference into [layers] *)
  layers : list FeatureLayer;                  (* the layer objects *)
  alerts : list Alert;                         (* alerts shown so far *)
  applyBtn : Button;
  mapLegend : option Legend;
  mapLegend_hidden : bool;
  classificationPanel_hidden : bool
}.

Definition show_alert (a : Alert) (p : Page) : Page :=
  {| fieldSelect_value := fieldSelect_value p;
     currentClassificationLayer := currentClassificationLayer p;
     layers := layers p;
     alerts := alerts p ++ [a];
     applyBtn := applyBtn p;
     mapLegend := mapLegend p;
     mapLegend_hidden := mapLegend_hidden p;
     classificationPanel_hidden := classificationPanel_hidden p |}.

Definition set_applyBtn (b : Button) (p : Page) : Page :=
  {| fieldSelect_value := fieldSelect_value p;
     currentClassificationLayer := currentClassificationLayer p;
     layers := layers p;
     alerts := alerts p;
     applyBtn := b;
     mapLegend := mapLegend p;
     mapLegend_hidden := mapLegend_hidden p;
     classificationPanel_hidden := classificationPanel_hidden p |}.

(** [layers[ref].renderer = r] *)
Fixpoint assign_renderer (ls : list FeatureLayer) (ref : nat) (r : Renderer)
  : list FeatureLayer :=
  match ls, ref with
  | [], _ => []
  | l :: ls', 0 => set_renderer l r :: ls'
  | l :: ls', S ref' => l :: assign_renderer ls' ref' r
  end.

(** [createMapLegend(stats, colors, fieldName)] *)
Definition createMapLegend (layer : FeatureLayer) (stats : FieldStats)
    (colors : list (list number)) (fieldName : string) : Legend :=
  let fieldLabel :=
    match find (fun f => String.eqb (name f) fieldName) (fields layer) with
    | Some f => if String.eqb (alias f) "" then name f else alias f
    | None => fieldName
    end in
  {| legend_fieldLabel := fieldLabel;
     legend_items :=
       mapWithIndex (fun entry index =>
                       (firstn 3 (nth index colors []), fst entry, snd entry))
                    0 (sortedValues stats);
     legend_validCount := validCount stats |}.

(** The [try] block of [applyFieldClassification] after the button has been
    switched to its busy state; [ref] is the current layer. *)
Definition classify (queryFeatures : Query) (ref : nat) (layer : FeatureLayer)
    (fieldName : string) (p : Page) : Page :=
  match analyzeFieldValues queryFeatures layer fieldName with
  | None => show_alert AlertNoValidValues p
  | Some stats =>
      if uniqueCount stats =? 0 then show_alert AlertNoValidValues p
      else
        let colors := generateColors (List.length (sortedValues stats)) in
        let layerGeometryType := geometryType layer in
        let renderer := classificationRenderer stats layerGeometryType fieldName in
        {| fieldSelect_value := fieldSelect_value p;
           currentClassificationLayer := currentClassificationLayer p;
           layers := assign_renderer (layers p) ref renderer;
           alerts := alerts p;
           applyBtn := applyBtn p;
           mapLegend := Some (createMapLegend layer stats colors fieldName);
           mapLegend_hidden := false;
           classificationPanel_hidden := true |}
  end.

(** [applyFieldClassification()].  A reference that names no layer cannot
    be written in the program; the model sends it down the [catch] branch. *)
Definition applyFieldClassification (queryFeatures : Query) (p : Page) : Page :=
  let fieldName := fieldSelect_value p in
  match currentClassificationLayer p with
  | None => show_alert AlertChooseField p
  | Some ref =>
      if String.eqb fieldName "" then show_alert AlertChooseField p
      else
        let resting := {| busy_caption := false; disabled := false |} in
        let busy := {| busy_caption := true; disabled := true |} in
        let p1 := set_applyBtn busy p in
        let p2 :=
          match nth_error (layers p1) ref with
          | Some layer => classify queryFeatures ref layer fieldName p1
          | None => show_alert AlertApplyFailed p1
          end in
        set_applyBtn resting p2          (* [finally] *)
  end.

(* ================================================================== *)
(** * [resetLayerRenderer]: back to the simple renderer *)
(* ================================================================== *)

(** [uploadedLayers.indexOf(layer)]: the first position of the reference,
    or -1. *)
Fixpoint indexOf (l : list nat) (x : nat) : Z :=
  match l with
  | [] => (-1)%Z
  | y :: l' =>
      if x =? y then 0%Z
      else let i := indexOf l' x in if (i <? 0)%Z then (-1)%Z else (i + 1)%Z
  end.

(** [colors[layerIndex % colors.length]]: the remainder has the sign of
    [layerIndex], and a negative index reads [undefined] ([None]). *)
Definition layerColor (layerIndex : Z) : option (list number) :=
  let i := Z.rem layerIndex (Z.of_nat (List.length layerColors)) in
  if (i <? 0)%Z then None else nth_error layerColors (Z.to_nat i).

(** The symbol of the reset renderer.  Spreading an undefined colour
    throws; a marker or a line merely stores it, written [[]] here, which no
    colour array of the program is. *)
Definition resetSymbol (geometryType : string) (color : option (list number))
  : outcome Symbol :=
  let stored := match color with Some c => c | None => [] end in
  if String.eqb geometryType "point" then
    Returned (SimpleMarker stored (of_Z 8) (rgb 255 255 255) (of_Z 2))
  else if String.eqb geometryType "polyline" then
    Returned (SimpleLine stored (of_Z 3))
  else
    match color with
    | Some c => Returned (SimpleFill (c ++ [Decimal false 3 (-1)]) c (of_Z 2))
    | None => Thrown
    end.

(** How [resetLayerRenderer] ends: at its end (or at the early return), or
    in its [catch] branch, which shows an alert of its own and leaves the
    page as the [try] block found it. *)
Inductive Reset : Type :=
| ResetDone (p : Page)
| ResetFailed (p : Page).

(** [resetLayerRenderer()], with [uploaded] the references held by
    [uploadedLayers].  As in [applyFieldClassification], a reference that
    names no layer goes down the [catch] branch. *)
Definition resetLayerRenderer (uploaded : list nat) (p : Page) : Reset :=
  match currentClassificationLayer p with
  | None => ResetDone p
  | Some ref =>
      match nth_error (layers p) ref with
      | None => ResetFailed p
      | Some layer =>
          let layerIndex := indexOf uploaded ref in
          match resetSymbol (geometryType layer) (layerColor layerIndex) with
          | Thrown => ResetFailed p
          | Returned defaultSymbol =>
              ResetDone
                {| fieldSelect_value := fieldSelect_value p;
                   currentClassificationLayer := currentClassificationLayer p;
                   layers := assign_renderer (layers p) ref (SimpleRenderer defaultSymbol);
                   alerts := alerts p;
                   applyBtn := applyBtn p;
                   mapLegend := mapLegend p;
                   mapLegend_hidden := true;
                   classificationPanel_hidden := true |}
          end
      end
  end.

(** The page a reset leaves behind, however it ended. *)
Definition reset_page (r : Reset) : Page :=
  match r with ResetDone p | ResetFailed p => p end.

(* ================================================================== *)
(** * [openClassificationPanel] and [showFieldStatistics] *)
(* ================================================================== *)

(** The options appended to the field select: value and caption of every
    field of type double, integer or string. *)
Definition fieldOptions (layer : FeatureLayer) : list (string * string) :=
  map (fun f => (name f, if String.eqb (alias f) "" then name f else alias f))
      (filter (fun f => String.eqb (field_type f) "double"
                        || String.eqb (field_type f) "integer"
                        || String.eqb (field_type f) "string")
              (fields layer)).

(** [openClassificationPanel(layer)] for the layer at [ref].  Rewriting the
    options leaves the placeholder selected, whose value is empty. *)
Definition openClassificationPanel (ref : nat) (p : Page) : Page :=
  {| fieldSelect_value := "";
     currentClassificationLayer := Some ref;
     layers := layers p;
     alerts := alerts p;
     applyBtn := applyBtn p;
     mapLegend := mapLegend p;
     mapLegend_hidden := mapLegend_hidden p;
     classificationPanel_hidden := false |}.

(** What [showFieldStatistics] puts into the field info box: nothing (the
    box is hidden), the three totals with one row per entry of
    [sortedValues], or the totals with the warning that only the top 20
    are used.  A row's percentage text is computed from its count and
    [validCount]. *)
Inductive FieldInfo : Type :=
| InfoHidden
| InfoRows (total valid unique : nat) (rows : list (string * nat))
| InfoWarning (total valid unique : nat).

Definition showFieldStatistics (stats : option FieldStats) : FieldInfo :=
  match stats with
  | None => InfoHidden
  | Some stats =>
      if uniqueCount stats <=? 20 then
        InfoRows (totalFeatures stats) (validCount stats) (uniqueCount stats)
                 (sortedValues stats)
      else
        InfoWarning (totalFeatures stats) (validCount stats) (uniqueCount stats)
  end.

(* ================================================================== *)
(** * The upload path around [addGeoJSONToMap] *)
(* ================================================================== *)

(** [s.endsWith(suffix)] *)
Fixpoint endsWith (s suffix : string) : bool :=
  String.eqb s suffix
  || match s with
     | EmptyString => false
     | String.String _ s' => endsWith s' suffix
     end.

(** The status line an upload is turned down with. *)
Inductive UploadStatus : Type :=
| SelectZipFile          (* "Please select a ZIP file containing shapefile data." *)
| SelectJsonFile         (* "Please select a .json or .geojson file." *)
| SizeExceeded.          (* "File size exceeds 50MB limit." *)

(** What [handleFileUpload] goes on to do with a file. *)
Inductive UploadStep : Type :=
| Rejected (status : UploadStatus)
| RunShapefile           (* [generateFeatureCollection(file)] *)
| RunGeoJSON             (* [processGeoJSON(file)] *)
| RunNothing.            (* a file type that is neither: loading shown, nothing run *)

(** [handleFileUpload(file, fileType)] up to the dispatch; [name] and [size]
    are [file.name] and [file.size]. *)
Definition handleFileUpload (name : string) (size : N) (fileType : string) : UploadStep :=
  let lower := toLowerCase name in
  let sized (next : UploadStep) : UploadStep :=
    if (50 * 1024 * 1024 <? size)%N then Rejected SizeExceeded else next in
  if String.eqb fileType "shapefile" then
    if negb (endsWith lower ".zip") then Rejected SelectZipFile
    else sized RunShapefile
  else if String.eqb fileType "geojson" then
    if negb (endsWith lower ".json") && negb (endsWith lower ".geojson")
    then Rejected SelectJsonFile
    else sized RunGeoJSON
  else sized RunNothing.

(** [name.split(".")[0]] *)
Fixpoint beforeFirstDot (s : string) : string :=
  match s with
  | EmptyString => EmptyString
  | String.String c s' =>
      if Ascii.eqb c "."%char then EmptyString
      else String.String c (beforeFirstDot s')
  end.

(** The parsed file: its [type] member, its [features] member when that is
    an array, and the object itself read as a feature (its [geometry] and
    [properties]).  Any [crs] member is deleted before use and plays no
    part. *)
Record GeoJSONData : Type := {
  data_type : value;
  data_features : option (list Feature);
  data_feature : Feature
}.

(** The errors [processGeoJSON] raises itself, and the one it passes on. *)
Inductive UploadError : Type :=
| InvalidGeoJSON         (* "Invalid GeoJSON. Must be a FeatureCollection or Feature." *)
| NoFeatures             (* "GeoJSON file contains no features." *)
| ConversionError.       (* whatever [addGeoJSONToMap] threw *)

Inductive Upload (A : Type) : Type :=
| Loaded (a : A)
| Failed (e : UploadError).

Arguments Loaded {A} a.
Arguments Failed {A} e.

(** The validation of [processGeoJSON]: the features handed to
    [addGeoJSONToMap]. *)
Definition validFeatures (d : GeoJSONData) : Upload (list Feature) :=
  match data_type d with
  | VStr t =>
      if String.eqb t "Feature" then Loaded [data_feature d]
      else if String.eqb t "FeatureCollection" then
        match data_features d with
        | None | Some [] => Failed NoFeatures
        | Some fs => Loaded fs
        end
      else Failed InvalidGeoJSON
  | _ => Failed InvalidGeoJSON
  end.

(** The layers of the map, and [uploadedLayers] as references into
    them. *)
Record Workspace : Type := {
  mapLayers : list FeatureLayer;
  uploadedLayers : list nat
}.

(** [addGeoJSONToMap(geoJSONData, layerName)]: build the layer, add it to
    the map and push it onto [uploadedLayers]. *)
Definition addGeoJSONToMap (fs : list Feature) (layerName : string)
    (w : Workspace) : outcome Workspace :=
  featureLayer <- geoJSONLayer (List.length (uploadedLayers w)) fs layerName ;;
  Returned {| mapLayers := mapLayers w ++ [featureLayer];
              uploadedLayers := uploadedLayers w ++ [List.length (mapLayers w)] |}.

(** [processGeoJSON(file)] on the parsed content [d] of a file called
    [name]. *)
Definition processGeoJSON (name : string) (d : GeoJSONData) (w : Workspace)
  : Upload Workspace :=
  match validFeatures d with
  | Failed e => Failed e
  | Loaded fs =>
      match addGeoJSONToMap fs (beforeFirstDot name) w with
      | Returned w' => Loaded w'
      | Thrown => Failed ConversionError
      end
  end.

(** [preservedAttributes] of [addShapefileToMap]: a new object filled key by
    key from [feature.attributes]. *)
Definition preservedAttributes (attrs : object value) : object value :=
  fold_left (fun acc key =>
               set acc key (match get attrs key with
                            | Some v => v
                            | None => VUndefined
                            end))
            (keys attrs) [].

(* ================================================================== *)
(** * The map click handler: which hit is shown *)
(* ================================================================== *)

(** One entry of [response.results] as the handler reads it: the graphic
    with its geometry and attributes, and the layer as a reference together
    with whether it has a [queryFeatures] method.  [None] stands for a
    missing or null member. *)
Record HitGraphic : Type := {
  hit_geometry : option EsriGeometry;
  hit_attributes : option (object value)
}.

Record HitLayer : Type := {
  hit_layer_ref : nat;
  hit_layer_queries : bool
}.

Record HitResult : Type := {
  hit_graphic : option HitGraphic;
  hit_layer : option HitLayer
}.

(** [result.graphic && result.graphic.geometry && result.layer] *)
Definition hit_usable (r : HitResult) : bool :=
  match hit_graphic r, hit_layer r with
  | Some g, Some _ => match hit_geometry g with Some _ => true | None => false end
  | _, _ => false
  end.

(** [uploadedLayers.includes(result.layer)] *)
Definition hit_uploaded (uploaded : list nat) (r : HitResult) : bool :=
  match hit_layer r with
  | Some l => existsb (Nat.eqb (hit_layer_ref l)) uploaded
  | None => false
  end.

(** [result.layer.queryFeatures || result.graphic.attributes] *)
Definition hit_readable (r : HitResult) : bool :=
  match hit_layer r, hit_graphic r with
  | Some l, Some g =>
      hit_layer_queries l
      || match hit_attributes g with Some _ => true | None => false end
  | _, _ => false
  end.

(** The two loops of the click handler: [targetResult] with
    [isUploadedLayer], or [None] when no result qualifies. *)
Definition pickTarget (uploaded : list nat) (results : list HitResult)
  : option (HitResult * bool) :=
  match find (fun r => hit_usable r && hit_uploaded uploaded r) results with
  | Some r => Some (r, true)
  | None =>
      match find (fun r => hit_usable r && hit_readable r) results with
      | Some r => Some (r, false)
      | None => None
      end
  end.

(* ================================================================== *)
(** * Vocabulary of the properties *)
(* ================================================================== *)

(** The distinct members of [l], each at the place of its first
    occurrence. *)
Definition first_occurrences (l : list string) : list string :=
  fold_left (fun seen k => if existsb (String.eqb k) seen then seen else seen ++ [k])
            l [].

(** [x] comes somewhere before [y] in [l]. *)
Definition precedes {A : Type} (l : list A) (x y : A) : Prop :=
  exists l1 l2 l3, l = l1 ++ x :: l2 ++ y :: l3.

(** Counts never increase along the list. *)
Definition descending (l : list (string * nat)) : Prop :=
  StronglySorted (fun a b => snd b <= snd a) l.

(** Buckets of equal count appear in the order in which their keys first
    occur in [ks]. *)
Definition ties_in_first_occurrence_order
    (ks : list string) (buckets : list (string * nat)) : Prop :=
  forall a b, precedes buckets a b -> snd a = snd b ->
              precedes (first_occurrences ks) (fst a) (fst b).

(** Buckets of equal count appear in the order [order] lists them. *)
Definition ties_in_order
    (order buckets : list (string * nat)) : Prop :=
  forall a b, precedes buckets a b -> snd a = snd b -> precedes order a b.

(** How often the key [k] occurs in [ks]. *)
Definition occurrences (k : string) (ks : list string) : nat :=
  List.length (filter (String.eqb k) ks).

Definition total_count (l : list (string * nat)) : nat :=
  list_sum (map snd l).

(** The six geometry type names the conversion knows, compared as the
    code compares them. *)
Definition recognized (t : string) : bool :=
  existsb (String.eqb (toLowerCase t))
    ["point"; "linestring"; "polygon"; "multipoint"; "multilinestring"; "multipolygon"].

(** A feature without geometry, or with a geometry of a type that is not
    one of the six. *)
Definition unsupported (f : Feature) : Prop :=
  match geometry f with
  | None => True
  | Some g => recognized (geometry_type g) = false
  end.

Definition objectId (g : Graphic) : option value := get (attributes g) "OBJECTID".
Definition fid (g : Graphic) : option value := get (attributes g) "FID".

(** Object ids [1, 2, ..., n] in this order. *)
Definition contiguous (ids : list (option value)) : Prop :=
  ids = map (fun i => Some (VNum (of_nat i))) (seq 1 (List.length ids)).

(** The properties of [f] define neither [OBJECTID] nor [FID]. *)
Definition plain_properties (f : Feature) : Prop :=
  match properties f with
  | None => True
  | Some p => get p "OBJECTID" = None /\ get p "FID" = None
  end.

(** The value a feature holds for [key], when it has properties. *)
Definition valueOf (key : string) (f : Feature) : value :=
  match properties f with
  | Some p => match get p key with Some v => v | None => VUndefined end
  | None => VUndefined
  end.

(** The number zero, of either sign. *)
Definition is_number_zero (v : value) : bool :=
  match v with VNum (Zero _) => true | _ => false end.

Definition is_false (v : value) : bool :=
  match v with VBool false => true | _ => false end.

(** A number that is not NaN and has a fractional part. *)
Definition is_fractional (v : value) : bool :=
  match v with
  | VNum x => negb (isNaN x) && negb (isInteger x)
  | _ => false
  end.

(** A feature whose geometry converts to a geometry of the SDK. *)
Definition kept (f : Feature) : Prop :=
  exists g, convertGeometry (geometry f) = Returned (Some g).

(** ** Sample data for the examples *)

(** A graphic whose only attribute is [fieldName: v]. *)
Definition withField (fieldName : string) (v : value) : Graphic :=
  {| graphic_geometry := None; attributes := [(fieldName, v)] |}.

(** A polygon layer whose graphics hold the values [vs] in the field [f]. *)
Definition sampleLayer (vs : list value) : FeatureLayer :=
  {| source := map (withField "f") vs;
     fields := [ {| name := "f"; alias := "f"; field_type := "string" |} ];
     objectIdField := "OBJECTID";
     geometryType := "polygon";
     title := "sample";
     popupEnabled := false;
     renderer := createCustomRenderer 0 "esriGeometryPolygon" |}.

(** A query that answers with the layer's own graphics. *)
Definition sourceQuery : Query := fun layer _ => Some (source layer).

(** A feature without geometry holding [v] under the key [k]. *)
Definition withProperty (k : string) (v : value) : Feature :=
  {| geometry := None; properties := Some [(k, v)] |}.

Definition position (x y : Z) : coords := Arr [Num (of_Z x); Num (of_Z y)].

(** A point feature with the given properties. *)
Definition pointFeature (x y : Z) (p : option (object value)) : Feature :=
  {| geometry := Some {| geometry_type := "Point"; coordinates := position x y |};
     properties := p |}.

(** A small closed ring around [(x, y)]. *)
Definition ring (x y : Z) : coords :=
  Arr [position x y; position (x + 1) y; position x (y + 1); position x y].

(** A page on which the classification panel is open for the layer at
    reference 0, with [field] chosen in the select. *)
Definition samplePage (layer : FeatureLayer) (field : string) : Page :=
  {| fieldSelect_value := field;
     currentClassificationLayer := Some 0;
     layers := [layer];
     alerts := [];
     applyBtn := {| busy_caption := false; disabled := false |};
     mapLegend := None;
     mapLegend_hidden := true;
     classificationPanel_hidden := false |}.

(** ** Further vocabulary *)

(** The tag the conversion gives to each geometry type name it knows. *)
Definition tagFor (lower : string) : option string :=
  if String.eqb lower "point" then Some "point"
  else if String.eqb lower "linestring" then Some "polyline"
  else if String.eqb lower "polygon" then Some "polygon"
  else if String.eqb lower "multipoint" then Some "multipoint"
  else if String.eqb lower "multilinestring" then Some "polyline"
  else if String.eqb lower "multipolygon" then Some "polygon"
  else None.

Definition is_array (c : coords) : bool :=
  match c with Arr _ => true | Num _ => false end.

(** An array all of whose members are arrays. *)
Definition array_of_arrays (c : coords) : bool :=
  match c with
  | Arr l => forallb is_array l
  | Num _ => false
  end.

(** A feature with a geometry of one of the six known types. *)
Definition supported (f : Feature) : bool :=
  match geometry f with
  | Some g => recognized (geometry_type g)
  | None => false
  end.

(** A multipolygon whose coordinates are not an array of arrays. *)
Definition malformed (f : Feature) : bool :=
  match geometry f with
  | Some g => String.eqb (toLowerCase (geometry_type g)) "multipolygon"
              && negb (array_of_arrays (coordinates g))
  | None => false
  end.

(** The property keys of the first feature, in property order. *)
Definition firstKeys (fs : list Feature) : list string :=
  match fs with
  | {| properties := Some p |} :: _ => keys p
  | _ => []
  end.

Definition without_properties (f : Feature) : Prop := properties f = None.

(** The rules of a unique-value renderer; a simple renderer has none. *)
Definition rules (r : Renderer) : list UniqueValueInfo :=
  match r with
  | UniqueValueRenderer _ infos _ _ => infos
  | SimpleRenderer _ => []
  end.

(** Two layers that differ at most in their renderer. *)
Definition same_but_renderer (a b : FeatureLayer) : Prop :=
  source a = source b /\ fields a = fields b
  /\ objectIdField a = objectIdField b /\ geometryType a = geometryType b
  /\ title a = title b /\ popupEnabled a = popupEnabled b.

(** A legend item and a renderer rule that show the same class. *)
Definition mirrors (item : list number * string * nat) (info : UniqueValueInfo) : Prop :=
  let '(color, value, count) := item in
  color = symbol_color (info_symbol info)
  /\ value = info_value info
  /\ info_label info = (value ++ " (" ++ String_number (of_nat count) ++ ")")%string.

(** The string contains a dot. *)
Fixpoint has_dot (s : string) : bool :=
  match s with
  | EmptyString => false
  | String.String c s' => Ascii.eqb c "."%char || has_dot s'
  end.

(** The size limit of an upload, in bytes. *)
Definition sizeLimit : N := (50 * 1024 * 1024)%N.

(** Why building a layer from these features throws. *)
Definition cannot_convert (fs : list Feature) : Prop :=
  (exists f, In f fs /\ malformed f = true)
  \/ (firstKeys fs <> [] /\ Exists without_properties fs).

(** The object id [n], as an attribute value. *)
Definition idValue (n : nat) : option value := Some (VNum (of_nat n)).

(** The renderer a GeoJSON layer of this geometry type is created with
    when [uploaded] layers exist already. *)
Definition uploadRenderer (uploaded : nat) (geometryType : string) : Renderer :=
  createCustomRenderer uploaded ("esriGeometry" ++ capitalize geometryType)%string.

(** Every layer of the map is an uploaded GeoJSON layer that still knows
    its place: the references of [uploadedLayers] are the positions in
    order, and a layer's geometry type is one of the three the upload
    assigns. *)
Definition uploads_in_order (w : Workspace) : Prop :=
  uploadedLayers w = seq 0 (List.length (mapLayers w))
  /\ Forall (fun l => In (geometryType l) ["point"; "polyline"; "polygon"])
            (mapLayers w).

(** Layer [i] carries the renderer it was uploaded with. *)
Definition upload_renderers (ls : list FeatureLayer) : Prop :=
  forall i l, nth_error ls i = Some l ->
              renderer l = uploadRenderer i (geometryType l).

(** A page with the classification panel closed, over the layers [ls]. *)
Definition closedPage (ls : list FeatureLayer) : Page :=
  {| fieldSelect_value := "";
     currentClassificationLayer := None;
     layers := ls;
     alerts := [];
     applyBtn := {| busy_caption := false; disabled := false |};
     mapLegend := None;
     mapLegend_hidden := true;
     classificationPanel_hidden := true |}.

Definition emptyWorkspace : Workspace := {| mapLayers := []; uploadedLayers := [] |}.

(* ================================================================== *)
(** * Lists, sorting and tables: general facts *)
(* ================================================================== *)

Section Precedes.
Context {A : Type}.

Lemma precedes_filter (p : A -> bool) (l : list A) (x y : A) :
  precedes l x y -> p x = true -> p y = true -> precedes (filter p l) x y.
Proof.
  intros (l1 & l2 & l3 & ->) Hx Hy.
  exists (filter p l1), (filter p l2), (filter p l3).
  rewrite filter_app. simpl. rewrite Hx, filter_app. simpl. now rewrite Hy.
Qed.

Lemma filter_eq_cons (p : A -> bool) (l : list A) (x : A) (r : list A) :
  filter p l = x :: r ->
  exists l1 l2, l = l1 ++ x :: l2 /\ filter p l2 = r.
Proof.
  induction l as [|a l IH]; simpl; [discriminate|].
  destruct (p a) eqn:Ha.
  - intros [= -> <-]. now exists [], l.
  - intros H. destruct (IH H) as (l1 & l2 & -> & Hr).
    now exists (a :: l1), l2.
Qed.

Lemma filter_eq_app_cons (p : A -> bool) (l : list A) (q : list A) (x : A) (r : list A) :
  filter p l = q ++ x :: r ->
  exists l1 l2, l = l1 ++ x :: l2 /\ filter p l2 = r.
Proof.
  revert l. induction q as [|b q IH]; intros l H; simpl in H.
  - now apply filter_eq_cons in H.
  - apply filter_eq_cons in H. destruct H as (l1 & l2 & -> & H).
    destruct (IH _ H) as (m1 & m2 & -> & Hr).
    exists (l1 ++ b :: m1), m2. split; [|exact Hr].
    now rewrite <- app_assoc.
Qed.

Lemma precedes_of_filter (p : A -> bool) (l : list A) (x y : A) :
  precedes (filter p l) x y -> precedes l x y.
Proof.
  intros (q1 & q2 & q3 & H).
  apply filter_eq_app_cons in H. destruct H as (l1 & l2 & -> & H).
  apply filter_eq_app_cons in H. destruct H as (m1 & m2 & -> & _).
  now exists l1, m1, m2.
Qed.

Lemma precedes_map {B : Type} (f : A -> B) (l : list A) (x y : A) :
  precedes l x y -> precedes (map f l) (f x) (f y).
Proof.
  intros (l1 & l2 & l3 & ->).
  exists (map f l1), (map f l2), (map f l3).
  rewrite map_app. simpl. now rewrite map_app.
Qed.

Lemma precedes_In (l : list A) (x y : A) :
  precedes l x y -> In x l /\ In y l.
Proof.
  intros (l1 & l2 & l3 & ->). split.
  - apply in_or_app. right. now left.
  - apply in_or_app. right. right. apply in_or_app. right. now left.
Qed.

Lemma filter_partition_perm (p : A -> bool) (l : list A) :
  Permutation (filter p l ++ filter (fun x => negb (p x)) l) l.
Proof.
  induction l as [|a l IH]; simpl; [constructor|].
  destruct (p a); simpl.
  - now constructor.
  - apply Permutation_sym, Permutation_cons_app. now apply Permutation_sym.
Qed.

Lemma filter_none (p : A -> bool) (l : list A) :
  (forall x, In x l -> p x = false) -> filter p l = [].
Proof.
  induction l as [|a l IH]; simpl; intros H; [reflexivity|].
  rewrite (H a) by now left. apply IH. intros x Hx. apply H. now right.
Qed.

Lemma filter_all (p : A -> bool) (l : list A) :
  (forall x, In x l -> p x = true) -> filter p l = l.
Proof.
  induction l as [|a l IH]; simpl; intros H; [reflexivity|].
  rewrite (H a) by now left. f_equal. apply IH. intros x Hx. apply H. now right.
Qed.
End Precedes.

(** ** [Array.prototype.sort] *)

Section SortFacts.
Context {A : Type} (cmp : A -> A -> Z).

Lemma sort_insert_perm (a : A) (l : list A) :
  Permutation (a :: l) (sort_insert cmp a l).
Proof.
  induction l as [|b l IH]; simpl; [reflexivity|].
  destruct (cmp a b <=? 0)%Z; [reflexivity|].
  rewrite perm_swap. now constructor.
Qed.

Lemma sort_perm (l : list A) : Permutation l (sort cmp l).
Proof.
  induction l as [|a l IH]; simpl; [constructor|].
  rewrite <- sort_insert_perm. now constructor.
Qed.

Lemma sort_In (l : list A) (x : A) : In x (sort cmp l) <-> In x l.
Proof.
  split; apply Permutation_in; [symmetry|]; apply sort_perm.
Qed.

Lemma sort_length (l : list A) : List.length (sort cmp l) = List.length l.
Proof. symmetry. apply Permutation_length, sort_perm. Qed.

(** With a comparator that is total and transitive the result is sorted
    for "[a] may stand before [b]". *)
Hypothesis cmp_total : forall a b, (0 < cmp a b)%Z -> (cmp b a <= 0)%Z.
Hypothesis cmp_trans :
  forall a b c, (cmp a b <= 0)%Z -> (cmp b c <= 0)%Z -> (cmp a c <= 0)%Z.

Let before (a b : A) : Prop := (cmp a b <= 0)%Z.

Lemma sort_insert_sorted (a : A) (l : list A) :
  StronglySorted before l -> StronglySorted before (sort_insert cmp a l).
Proof.
  induction 1 as [|b l Hl IH Hb]; simpl.
  - repeat constructor.
  - destruct (cmp a b <=? 0)%Z eqn:E.
    + apply Z.leb_le in E. constructor; [now constructor|].
      constructor; [exact E|].
      eapply Forall_impl; [|exact Hb]. intros c Hc. now apply cmp_trans with b.
    + apply Z.leb_gt in E. constructor; [exact IH|].
      apply (Permutation_Forall (sort_insert_perm a l)).
      constructor; [now apply cmp_total | exact Hb].
Qed.

Lemma sort_sorted (l : list A) : StronglySorted before (sort cmp l).
Proof.
  induction l as [|a l IH]; simpl; [constructor | now apply sort_insert_sorted].
Qed.
End SortFacts.

(** Stability, for a comparator that is a difference of ranks: elements of
    one rank keep their relative order. *)
Section Stability.
Context {A : Type} (rank : A -> Z) (cmp : A -> A -> Z).
Hypothesis cmp_rank : forall a b, (cmp a b <= 0)%Z <-> (rank a <= rank b)%Z.

Lemma sort_insert_stable (r : Z) (a : A) (l : list A) :
  filter (fun x => (rank x =? r)%Z) (sort_insert cmp a l)
  = filter (fun x => (rank x =? r)%Z) (a :: l).
Proof.
  induction l as [|b l IH]; simpl; [reflexivity|].
  destruct (cmp a b <=? 0)%Z eqn:E; [reflexivity|].
  apply Z.leb_gt in E. simpl. rewrite IH. simpl.
  destruct (rank a =? r)%Z eqn:Ea, (rank b =? r)%Z eqn:Eb; try reflexivity.
  apply Z.eqb_eq in Ea, Eb.
  assert (cmp a b <= 0)%Z by (apply cmp_rank; lia). lia.
Qed.

Lemma sort_stable (r : Z) (l : list A) :
  filter (fun x => (rank x =? r)%Z) (sort cmp l)
  = filter (fun x => (rank x =? r)%Z) l.
Proof.
  induction l as [|a l IH]; simpl; [reflexivity|].
  rewrite sort_insert_stable. simpl. now rewrite IH.
Qed.

Lemma sort_keeps_tie_order (l : list A) (x y : A) :
  precedes (sort cmp l) x y -> rank x = rank y -> precedes l x y.
Proof.
  intros H E.
  apply (precedes_of_filter (fun z => (rank z =? rank x)%Z)).
  rewrite <- sort_stable. apply precedes_filter; [exact H| |].
  - apply Z.eqb_refl.
  - apply Z.eqb_eq. now symmetry.
Qed.
End Stability.

(** ** Tables *)

Section ObjectFacts.
Context {A : Type}.
Implicit Types (o : object A) (k : string) (v : A).

Lemma get_set_same o k v : get (set o k v) k = Some v.
Proof.
  induction o as [|[k' v'] o IH]; simpl.
  - now rewrite String.eqb_refl.
  - destruct (String.eqb k k') eqn:E; simpl; rewrite ?String.eqb_refl, ?E; auto.
Qed.

Lemma get_set_other o k k' v : k' <> k -> get (set o k v) k' = get o k'.
Proof.
  intros Hne. apply String.eqb_neq in Hne.
  induction o as [|[k0 v0] o IH]; simpl.
  - now rewrite Hne.
  - destruct (String.eqb k k0) eqn:E; simpl.
    + apply String.eqb_eq in E. subst k0. now rewrite Hne.
    + now rewrite IH.
Qed.

Lemma get_None_not_In o k : get o k = None <-> ~ In k (map fst o).
Proof.
  induction o as [|[k' v'] o IH]; simpl; [tauto|].
  destruct (String.eqb k k') eqn:E.
  - apply String.eqb_eq in E. subst. split; [discriminate | intros H; exfalso; auto].
  - apply String.eqb_neq in E. rewrite IH. intuition congruence.
Qed.

Lemma get_Some_In o k v : get o k = Some v -> In (k, v) o.
Proof.
  induction o as [|[k' v'] o IH]; simpl; [discriminate|].
  destruct (String.eqb k k') eqn:E.
  - apply String.eqb_eq in E. intros [= ->]. subst. now left.
  - intros H. right. auto.
Qed.

Lemma In_get_Some o k v :
  NoDup (map fst o) -> In (k, v) o -> get o k = Some v.
Proof.
  induction o as [|[k' v'] o IH]; simpl; [tauto|].
  intros Hnd [H|H]; inversion Hnd; subst.
  - inversion H; subst. now rewrite String.eqb_refl.
  - destruct (String.eqb k k') eqn:E.
    + apply String.eqb_eq in E. subst. exfalso. apply H2.
      change k' with (fst (k', v)). now apply in_map.
    + auto.
Qed.

(** Writing a key that is new appends it; writing an old one changes the
    value in place. *)
Lemma keys_set_new o k v :
  get o k = None -> set o k v = o ++ [(k, v)].
Proof.
  induction o as [|[k' v'] o IH]; simpl; [reflexivity|].
  destruct (String.eqb k k'); [discriminate|]. intros H. now rewrite IH.
Qed.

Lemma keys_set_old o k v w :
  get o k = Some w -> map fst (set o k v) = map fst o.
Proof.
  induction o as [|[k' v'] o IH]; simpl; [discriminate|].
  destruct (String.eqb k k') eqn:E; simpl.
  - apply String.eqb_eq in E. now subst.
  - intros H. now rewrite IH.
Qed.

Lemma entries_perm o : Permutation (entries o) o.
Proof.
  unfold entries.
  rewrite <- (filter_partition_perm (fun e => is_array_index (fst e)) o) at 3.
  apply Permutation_app_tail, Permutation_sym, sort_perm.
Qed.

Lemma entries_length o : List.length (entries o) = List.length o.
Proof. apply Permutation_length, entries_perm. Qed.

Lemma keys_length o : List.length (keys o) = List.length o.
Proof. unfold keys. now rewrite length_map, entries_length. Qed.

(** Keys that are not array indices are listed in creation order. *)
Lemma entries_named o :
  filter (fun e => negb (is_array_index (fst e))) (entries o)
  = filter (fun e => negb (is_array_index (fst e))) o.
Proof.
  unfold entries. rewrite filter_app, filter_none.
  - simpl. apply filter_all. intros x Hx. now apply filter_In in Hx.
  - intros x Hx. apply sort_In, filter_In in Hx. destruct Hx as [_ ->].
    reflexivity.
Qed.

(** A table without array-index keys is listed as it was created. *)
Lemma entries_no_index o :
  (forall k, In k (map fst o) -> is_array_index k = false) -> entries o = o.
Proof.
  intros H. unfold entries. rewrite filter_none, filter_all; [reflexivity| |].
  - intros [k v] Hx. simpl. rewrite H; [reflexivity|].
    change k with (fst (k, v)). now apply in_map.
  - intros [k v] Hx. simpl. apply H.
    change k with (fst (k, v)). now apply in_map.
Qed.

End ObjectFacts.

Lemma StronglySorted_weaken {A : Type} (R R' : A -> A -> Prop) (l : list A) :
  (forall a b, R a b -> R' a b) -> StronglySorted R l -> StronglySorted R' l.
Proof.
  intros H. induction 1 as [|a l Hl IH Ha]; constructor; [exact IH|].
  eapply Forall_impl; [|exact Ha]. intros b. apply H.
Qed.

(** Array-index keys are listed first, in ascending numeric order. *)
Lemma entries_indexed_ascending {A : Type} (o : object A) :
  exists idx,
    entries o = idx ++ filter (fun e => negb (is_array_index (fst e))) o
    /\ Permutation idx (filter (fun e => is_array_index (fst e)) o)
    /\ StronglySorted (fun a b => (index_of a <= index_of b)%Z) idx.
Proof.
  eexists. split; [reflexivity|]. split.
  - apply Permutation_sym, sort_perm.
  - eapply StronglySorted_weaken; [|apply sort_sorted].
    + intros a b H. simpl in H. lia.
    + intros a b H. simpl. lia.
    + intros a b c H1 H2. simpl in *. lia.
Qed.

(** ** First occurrences *)

Lemma first_occurrences_snoc (l : list string) (k : string) :
  first_occurrences (l ++ [k])
  = if existsb (String.eqb k) (first_occurrences l)
    then first_occurrences l else first_occurrences l ++ [k].
Proof. unfold first_occurrences. now rewrite fold_left_app. Qed.

Lemma existsb_eqb_In (k : string) (l : list string) :
  existsb (String.eqb k) l = true <-> In k l.
Proof.
  rewrite existsb_exists. split.
  - intros (x & Hx & E). apply String.eqb_eq in E. now subst.
  - intros H. exists k. split; [exact H | apply String.eqb_refl].
Qed.

Lemma first_occurrences_In (l : list string) (k : string) :
  In k (first_occurrences l) <-> In k l.
Proof.
  induction l as [|x l IH] using rev_ind; [reflexivity|].
  rewrite first_occurrences_snoc, in_app_iff. simpl.
  destruct (existsb (String.eqb x) (first_occurrences l)) eqn:E.
  - apply existsb_eqb_In in E. rewrite IH in *. intuition (subst; auto).
  - rewrite in_app_iff, IH. simpl. tauto.
Qed.

Lemma first_occurrences_NoDup (l : list string) : NoDup (first_occurrences l).
Proof.
  induction l as [|x l IH] using rev_ind; [constructor|].
  rewrite first_occurrences_snoc.
  destruct (existsb (String.eqb x) (first_occurrences l)) eqn:E; [exact IH|].
  apply NoDup_app; [exact IH | repeat constructor; auto |].
  intros a Ha [<-|[]]. apply existsb_eqb_In in Ha. congruence.
Qed.

Lemma occurrences_snoc (k k' : string) (l : list string) :
  occurrences k (l ++ [k']) = occurrences k l + (if String.eqb k k' then 1 else 0).
Proof.
  unfold occurrences. rewrite filter_app, length_app. simpl.
  now destruct (String.eqb k k').
Qed.

Lemma occurrences_zero (k : string) (l : list string) :
  occurrences k l = 0 <-> ~ In k l.
Proof.
  unfold occurrences. induction l as [|x l IH]; simpl; [tauto|].
  destruct (String.eqb k x) eqn:E; simpl.
  - apply String.eqb_eq in E. subst. split; [discriminate | intros H; exfalso; auto].
  - apply String.eqb_neq in E. rewrite IH. intuition congruence.
Qed.

(** ** The tally of [analyzeFieldValues] *)

Lemma valueCount_snoc (l : list value) (v : value) :
  valueCount (l ++ [v]) = countValue (valueCount l) v.
Proof. unfold valueCount. now rewrite fold_left_app. Qed.

(** Every key holds the number of values printed as that key. *)
Lemma valueCount_get (l : list value) (k : string) :
  get (valueCount l) k
  = if occurrences k (map String l) =? 0 then None
    else Some (occurrences k (map String l)).
Proof.
  induction l as [|v l IH] using rev_ind; [reflexivity|].
  rewrite valueCount_snoc, map_app. cbn [map]. rewrite occurrences_snoc.
  unfold countValue.
  destruct (String.eqb k (String v)) eqn:E.
  - apply String.eqb_eq in E. subst k. rewrite get_set_same, IH.
    destruct (occurrences (String v) (map String l)) eqn:En; simpl; [reflexivity|].
    replace (n + 1 =? 0) with false by (symmetry; apply Nat.eqb_neq; lia).
    reflexivity.
  - apply String.eqb_neq in E. rewrite get_set_other by exact E.
    now rewrite IH, Nat.add_0_r.
Qed.

(** The keys are created in the order of first occurrence. *)
Lemma valueCount_keys (l : list value) :
  map fst (valueCount l) = first_occurrences (map String l).
Proof.
  induction l as [|v l IH] using rev_ind; [reflexivity|].
  rewrite valueCount_snoc, map_app. cbn [map]. rewrite first_occurrences_snoc.
  unfold countValue. rewrite <- IH.
  destruct (get (valueCount l) (String v)) as [n|] eqn:G.
  - rewrite (keys_set_old _ _ _ n) by exact G.
    replace (existsb _ _) with true; [reflexivity|].
    symmetry. apply existsb_eqb_In. apply get_Some_In in G.
    change (String v) with (fst (String v, n)). now apply in_map.
  - rewrite keys_set_new by exact G. rewrite map_app. simpl.
    replace (existsb _ _) with false; [reflexivity|].
    symmetry. apply not_true_is_false. rewrite existsb_eqb_In.
    now apply get_None_not_In.
Qed.

Lemma valueCount_NoDup (l : list value) : NoDup (map fst (valueCount l)).
Proof. rewrite valueCount_keys. apply first_occurrences_NoDup. Qed.

(** A bucket that exists has counted at least one value. *)
Lemma valueCount_positive (l : list value) :
  Forall (fun e => 1 <= snd e) (valueCount l).
Proof.
  apply Forall_forall. intros [k n] Hin. simpl.
  apply In_get_Some in Hin; [|apply valueCount_NoDup].
  rewrite valueCount_get in Hin.
  destruct (occurrences k (map String l)) eqn:E; simpl in Hin; [discriminate|].
  injection Hin as <-. lia.
Qed.

Lemma total_count_set_new (o : object nat) (k : string) (v : nat) :
  get o k = None -> total_count (set o k v) = total_count o + v.
Proof.
  intros G. rewrite keys_set_new by exact G.
  unfold total_count. rewrite map_app, list_sum_app. simpl. lia.
Qed.

Lemma total_count_set_old (o : object nat) (k : string) (v w : nat) :
  get o k = Some w -> total_count (set o k v) + w = total_count o + v.
Proof.
  unfold total_count.
  induction o as [|[k' v'] o IH]; simpl; [discriminate|].
  destruct (String.eqb k k') eqn:E; simpl.
  - intros [= ->]. lia.
  - intros G. specialize (IH G). lia.
Qed.

(** The counts add up to the number of values tallied. *)
Lemma valueCount_total (l : list value) :
  total_count (valueCount l) = List.length l.
Proof.
  induction l as [|v l IH] using rev_ind; [reflexivity|].
  rewrite valueCount_snoc, length_app. simpl. unfold countValue.
  destruct (get (valueCount l) (String v)) as [n|] eqn:G.
  - pose proof (total_count_set_old _ _ (n + 1) _ G). lia.
  - rewrite total_count_set_new by exact G. lia.
Qed.

Lemma total_count_perm (l l' : list (string * nat)) :
  Permutation l l' -> total_count l = total_count l'.
Proof.
  unfold total_count. induction 1; simpl; lia.
Qed.

Lemma Forall_perm_positive (l l' : list (string * nat)) :
  Permutation l l' ->
  Forall (fun e => 1 <= snd e) l -> Forall (fun e => 1 <= snd e) l'.
Proof. intros H. apply Permutation_Forall, H. Qed.

Lemma sortedBuckets_perm (l : list value) :
  Permutation (sortedBuckets l) (valueCount l).
Proof.
  unfold sortedBuckets. rewrite <- sort_perm. apply entries_perm.
Qed.

(** Cutting a list of positive counts loses weight exactly when it loses
    an entry. *)
Lemma total_count_firstn (n : nat) (l : list (string * nat)) :
  Forall (fun e => 1 <= snd e) l ->
  total_count (firstn n l) <= total_count l
  /\ (total_count (firstn n l) = total_count l <-> List.length l <= n).
Proof.
  intros Hpos.
  assert (Hsplit : total_count l = total_count (firstn n l) + total_count (skipn n l)).
  { rewrite <- (firstn_skipn n l) at 1. unfold total_count.
    now rewrite map_app, list_sum_app. }
  assert (Hrest : total_count (skipn n l) = 0 <-> List.length l <= n).
  { assert (Hp : Forall (fun e => 1 <= snd e) (skipn n l)).
    { rewrite <- (firstn_skipn n l) in Hpos. now apply Forall_app in Hpos. }
    split.
    - intros H0. apply skipn_all_iff.
      destruct (skipn n l) as [|[k c] r]; [reflexivity|].
      inversion Hp; subst. unfold total_count in H0. simpl in *. lia.
    - intros Hlen. apply skipn_all_iff in Hlen. now rewrite Hlen. }
  split; [lia|]. rewrite <- Hrest. lia.
Qed.

Lemma precedes_firstn {A : Type} (n : nat) (l : list A) (x y : A) :
  precedes (firstn n l) x y -> precedes l x y.
Proof.
  intros (l1 & l2 & l3 & H). exists l1, l2, (l3 ++ skipn n l).
  rewrite <- (firstn_skipn n l) at 1. rewrite H.
  rewrite <- !app_assoc. simpl. now rewrite <- app_assoc.
Qed.

Lemma Forall_prefix {A : Type} (P : A -> Prop) (n : nat) (l : list A) :
  Forall P l -> Forall P (firstn n l).
Proof.
  intros H. rewrite <- (firstn_skipn n l) in H. now apply Forall_app in H.
Qed.

Lemma StronglySorted_firstn {A : Type} (R : A -> A -> Prop) (n : nat) (l : list A) :
  StronglySorted R l -> StronglySorted R (firstn n l).
Proof.
  intros H. revert n. induction H as [|a l Hl IH Ha]; intros [|n]; simpl.
  - constructor.
  - constructor.
  - constructor.
  - constructor; [apply IH | now apply Forall_prefix].
Qed.

(** What a non-null answer of [analyzeFieldValues] is made of. *)
Lemma analyzeFieldValues_Some (q : Query) (layer : FeatureLayer)
    (field : string) (stats : FieldStats) :
  analyzeFieldValues q layer field = Some stats ->
  exists features,
    q layer field = Some features /\ features <> [] /\
    let valid := validValues (fieldValues features field) in
    stats = {| totalFeatures := List.length features;
               validCount := List.length valid;
               uniqueCount := List.length (keys (valueCount valid));
               sortedValues := firstn 20 (sortedBuckets valid);
               fieldName := field |}.
Proof.
  unfold analyzeFieldValues, fieldStatistics.
  destruct (q layer field) as [features|]; [|discriminate].
  destruct features as [|f fs]; simpl; [discriminate|].
  intros [= <-]. exists (f :: fs). repeat split. discriminate.
Qed.

Lemma sortedBuckets_descending (l : list value) : descending (sortedBuckets l).
Proof.
  unfold descending, sortedBuckets.
  eapply StronglySorted_weaken; [|apply sort_sorted].
  - intros a b H. unfold byCountDescending in H. simpl in H. lia.
  - intros a b H. unfold byCountDescending in *. lia.
  - intros a b c H1 H2. unfold byCountDescending in *. lia.
Qed.

(** Among buckets of one count the sort keeps the order of
    [Object.entries]. *)
Lemma sortedBuckets_ties (l : list value) :
  ties_in_order (entries (valueCount l)) (sortedBuckets l).
Proof.
  intros a b H E. unfold sortedBuckets in H.
  refine (sort_keeps_tie_order (fun e => (- Z.of_nat (snd e))%Z)
            byCountDescending _ _ a b H _).
  - intros x y. unfold byCountDescending. lia.
  - now rewrite E.
Qed.

(** Among buckets of one count whose keys are not array indices, the order
    is that of first occurrence. *)
Lemma sortedBuckets_named_ties (l : list value) (a b : string * nat) :
  precedes (sortedBuckets l) a b -> snd a = snd b ->
  is_array_index (fst a) = false -> is_array_index (fst b) = false ->
  precedes (first_occurrences (map String l)) (fst a) (fst b).
Proof.
  intros H E Ha Hb. pose proof (sortedBuckets_ties l a b H E) as H'.
  apply (precedes_filter (fun e => negb (is_array_index (fst e)))) in H';
    [|now rewrite Ha | now rewrite Hb].
  rewrite entries_named in H'. apply precedes_of_filter in H'.
  rewrite <- valueCount_keys. now apply precedes_map.
Qed.

Lemma sortedBuckets_keys (l : list value) (e : string * nat) :
  In e (sortedBuckets l) -> In (fst e) (map String l).
Proof.
  intros H. apply (Permutation_in _ (sortedBuckets_perm l)) in H.
  apply first_occurrences_In. rewrite <- valueCount_keys. now apply in_map.
Qed.

(* ================================================================== *)
(** * Field statistics *)
(* ================================================================== *)

(** Values that a predicate selects, that are valid and that print as [k],
    are all counted under [k]. *)
Lemma occurrences_of_selected (p : value -> bool) (k : string) (vs : list value) :
  (forall v, p v = true -> is_valid v = true /\ String v = k) ->
  List.length (filter p vs) <= occurrences k (map String (validValues vs)).
Proof.
  intros Hp. unfold occurrences, validValues.
  induction vs as [|v vs IH]; simpl; [lia|].
  destruct (p v) eqn:E.
  - destruct (Hp v E) as [Hv Hk]. rewrite Hv. simpl. rewrite Hk, String.eqb_refl.
    simpl. lia.
  - destruct (is_valid v); simpl; [|exact IH].
    destruct (String.eqb k (String v)); simpl; lia.
Qed.

Lemma filter_length_le {A : Type} (p : A -> bool) (l : list A) :
  List.length (filter p l) <= List.length l.
Proof. induction l as [|a l IH]; simpl; [lia|]. destruct (p a); simpl; lia. Qed.

Lemma filter_length_both {A : Type} (p q r : A -> bool) (l : list A) :
  (forall x, p x = true -> r x = true) -> (forall x, q x = true -> r x = true) ->
  (forall x, p x = true -> q x = false) ->
  List.length (filter p l) + List.length (filter q l) <= List.length (filter r l).
Proof.
  intros Hp Hq Hpq. induction l as [|a l IH]; simpl; [lia|].
  destruct (p a) eqn:Ep, (q a) eqn:Eq; simpl.
  - rewrite (Hpq a Ep) in Eq. discriminate.
  - rewrite (Hp a Ep). simpl. lia.
  - rewrite (Hq a Eq). simpl. lia.
  - destruct (r a); simpl; lia.
Qed.

(** C2: for the six values ["A","A","B",null,"","C"] the statistics are
    totalFeatures = 6, validCount = 4, uniqueCount = 3 and
    sortedValues = [("A",2),("B",1),("C",1)].  The values left out are
    exactly null, undefined and the empty string: a blank string is kept
    (nothing is trimmed), validCount is the number of values that pass, and
    the keys of the tally are the printed forms of the values that pass. *)
Theorem C2_statistics_example :
  analyzeFieldValues sourceQuery
    (sampleLayer [VStr "A"; VStr "A"; VStr "B"; VNull; VStr ""; VStr "C"]) "f"
  = Some {| totalFeatures := 6; validCount := 4; uniqueCount := 3;
            sortedValues := [("A", 2); ("B", 1); ("C", 1)];
            fieldName := "f" |}
  /\ (forall v, is_valid v = false <-> v = VNull \/ v = VUndefined \/ v = VStr "")
  /\ is_valid (VStr " ") = true
  /\ (forall q layer field,
        option_map validCount (analyzeFieldValues q layer field)
        = match q layer field with
          | Some (f :: fs) =>
              Some (List.length (filter is_valid (fieldValues (f :: fs) field)))
          | _ => None
          end)
  /\ (forall vs k,
        In k (map fst (valueCount (validValues vs)))
        <-> exists v, In v vs /\ is_valid v = true /\ String v = k).
Proof.
  split; [reflexivity|]. split; [|split; [reflexivity|split]].
  - intros v. split.
    + destruct v as [| |b|x|s]; simpl; try discriminate; auto.
      intros H. apply negb_false_iff, String.eqb_eq in H. subst. auto.
    + intros [->|[->| ->]]; reflexivity.
  - intros q layer field. unfold analyzeFieldValues, fieldStatistics.
    destruct (q layer field) as [[|f fs]|]; reflexivity.
  - intros vs k. rewrite valueCount_keys, first_occurrences_In, in_map_iff.
    unfold validValues. split.
    + intros (v & <- & Hv). apply filter_In in Hv. exists v. tauto.
    + intros (v & Hin & Hv & <-). exists v. split; [reflexivity|].
      apply filter_In. tauto.
Qed.






(** C9: the filter drops only null, undefined and the empty string, so the
    number 0 and the boolean false are valid: they are part of validCount,
    and when they occur the tally has the keys "0" and "false" with at
    least as many counts as there are such values. *)
Theorem C9_zero_and_false_are_valid
    (q : Query) (layer : FeatureLayer) (field : string) (stats : FieldStats) :
  analyzeFieldValues q layer field = Some stats ->
  exists features,
    q layer field = Some features /\
    let values := fieldValues features field in
    let tally := valueCount (validValues values) in
    (forall negative, is_valid (VNum (Zero negative)) = true
                      /\ String (VNum (Zero negative)) = "0")
    /\ is_valid (VBool false) = true /\ String (VBool false) = "false"
    /\ List.length (filter is_number_zero values)
       + List.length (filter is_false values) <= validCount stats
    /\ (forall negative, In (VNum (Zero negative)) values ->
          exists n, get tally "0" = Some n
                    /\ 1 <= List.length (filter is_number_zero values) <= n)
    /\ (In (VBool false) values ->
          exists n, get tally "false" = Some n
                    /\ 1 <= List.length (filter is_false values) <= n).
Proof.
  intros H. apply analyzeFieldValues_Some in H.
  destruct H as (features & Hq & _ & ->). exists features. split; [exact Hq|].
  cbn zeta. cbn [validCount].
  set (values := fieldValues features field).
  assert (Hzero : forall v, is_number_zero v = true ->
                            is_valid v = true /\ String v = "0").
  { intros [| |b|[| | |]|s]; simpl; try discriminate. auto. }
  assert (Hfalse : forall v, is_false v = true ->
                             is_valid v = true /\ String v = "false").
  { intros [| |[|]|x|s]; simpl; try discriminate. auto. }
  split; [intros negative; split; reflexivity|].
  split; [reflexivity|]. split; [reflexivity|].
  split.
  { unfold validValues. apply filter_length_both.
    - intros v Hv. now apply Hzero.
    - intros v Hv. now apply Hfalse.
    - intros [| |b|[| | |]|s]; simpl; try discriminate; reflexivity. }
  split.
  - intros negative Hin.
    pose proof (occurrences_of_selected is_number_zero "0" values Hzero) as Hle.
    assert (Hone : 1 <= List.length (filter is_number_zero values)).
    { assert (Hin' : In (VNum (Zero negative)) (filter is_number_zero values))
        by (apply filter_In; split; [exact Hin | reflexivity]).
      destruct (filter is_number_zero values); [destruct Hin' | simpl; lia]. }
    exists (occurrences "0" (map String (validValues values))).
    rewrite valueCount_get.
    destruct (occurrences "0" (map String (validValues values))) eqn:E; [lia|].
    simpl. split; [reflexivity | lia].
  - intros Hin.
    pose proof (occurrences_of_selected is_false "false" values Hfalse) as Hle.
    assert (Hone : 1 <= List.length (filter is_false values)).
    { assert (Hin' : In (VBool false) (filter is_false values))
        by (apply filter_In; split; [exact Hin | reflexivity]).
      destruct (filter is_false values); [destruct Hin' | simpl; lia]. }
    exists (occurrences "false" (map String (validValues values))).
    rewrite valueCount_get.
    destruct (occurrences "false" (map String (validValues values))) eqn:E; [lia|].
    simpl. split; [reflexivity | lia].
Qed.

(** C9 at the values 0, false, "", 0: three valid values, "0" counted
    twice and "false" once. *)
Lemma C9_witness :
  let layer := sampleLayer [VNum (Zero false); VBool false; VStr ""; VNum (Zero false)] in
  analyzeFieldValues sourceQuery layer "f"
  = Some {| totalFeatures := 4; validCount := 3; uniqueCount := 2;
            sortedValues := [("0", 2); ("false", 1)]; fieldName := "f" |}
  /\ exists features,
       sourceQuery layer "f" = Some features
       /\ List.length (filter is_number_zero (fieldValues features "f"))
          + List.length (filter is_false (fieldValues features "f")) <= 3.
Proof.
  intros layer. split; [reflexivity|].
  destruct (C9_zero_and_false_are_valid sourceQuery layer "f" _ eq_refl)
    as (features & Hq & _ & _ & _ & Hcount & _).
  exists features. split; [exact Hq | exact Hcount].
Defined.

(* ================================================================== *)
(** * Field types of an uploaded GeoJSON layer *)
(* ================================================================== *)

(** The two flags after the scan, from any starting flags. *)
Lemma scan_from (key : string) (fs : list Feature) (s : scan) :
  Forall (fun f => properties f <> None) fs ->
  fold_left (fun acc f => s <- acc ;; scanFeature key s f) fs (Returned s)
  = Returned
      {| hasNumber := hasNumber s || existsb is_real_number (map (valueOf key) fs);
         hasDecimal := hasDecimal s || existsb is_fractional (map (valueOf key) fs) |}.
Proof.
  intros H. revert s. induction H as [|f fs Hf Hfs IH]; intros [n d]; simpl.
  - now rewrite !orb_false_r.
  - unfold scanFeature at 2, valueOf at 1 3.
    destruct (properties f) as [p|]; [|congruence].
    destruct (get p key) as [[| |b|x|t]|]; simpl; try apply IH.
    destruct (isNaN x); simpl; rewrite IH; simpl.
    + reflexivity.
    + destruct (isInteger x); simpl; rewrite ?orb_true_r; reflexivity.
Qed.

(** C1 (as stated) fails: for the values 1, "a", 3 the detected type is
    "integer", not "string". *)
Lemma C1_counterexample :
  fieldTypeOf "k"
    (map (withProperty "k") [VNum (of_Z 1); VStr "a"; VNum (of_Z 3)])
  = Returned "integer"
  /\ fieldTypeOf "k"
       (map (withProperty "k") [VNum (of_Z 1); VStr "a"; VNum (of_Z 3)])
     <> Returned "string".
Proof. split; [reflexivity | discriminate]. Qed.

(** C1 (amended): over features that all have properties, the detected
    type looks at numbers only.  It is "string" exactly when no value of the
    field is a number other than NaN, "double" when some such number has a
    fractional part, and "integer" otherwise; values that are not numbers
    never change it.  So [1, 2, 3] gives "integer", [1, 2.5, 3] gives
    "double", no value at all gives "string", and [1, "a", 3] gives
    "integer". *)
Theorem C1_field_type_from_numbers_only (key : string) (fs : list Feature) :
  Forall (fun f => properties f <> None) fs ->
  let values := map (valueOf key) fs in
  fieldTypeOf key fs
  = Returned (if existsb is_real_number values
              then (if existsb is_fractional values then "double" else "integer")
              else "string")
  /\ (fieldTypeOf key fs = Returned "string"
      <-> forall v, In v values -> is_real_number v = false)
  /\ fieldTypeOf key (filter (fun f => is_real_number (valueOf key f)) fs)
     = fieldTypeOf key fs.
Proof.
  intros H values.
  assert (E : fieldTypeOf key fs
              = Returned (if existsb is_real_number values
                          then (if existsb is_fractional values
                                then "double" else "integer")
                          else "string")).
  { unfold fieldTypeOf, scanFeatures. now rewrite scan_from. }
  split; [exact E|]. split.
  - rewrite E. destruct (existsb is_real_number values) eqn:Ex.
    + split.
      * destruct (existsb is_fractional values); discriminate.
      * intros Hall. apply existsb_exists in Ex. destruct Ex as (v & Hv & Hr).
        rewrite (Hall v Hv) in Hr. discriminate.
    + split; [|reflexivity]. intros _ v Hv.
      apply not_true_is_false. intros Hr.
      assert (existsb is_real_number values = true)
        by (apply existsb_exists; eauto).
      congruence.
  - rewrite E. unfold fieldTypeOf, scanFeatures. rewrite scan_from.
    + simpl. f_equal. subst values.
      assert (Hreal : forall l,
                existsb is_real_number
                  (map (valueOf key)
                     (filter (fun f => is_real_number (valueOf key f)) l))
                = existsb is_real_number (map (valueOf key) l)).
      { induction l as [|f l IH]; simpl; [reflexivity|].
        destruct (is_real_number (valueOf key f)) eqn:Ef; simpl; rewrite ?Ef, IH;
          reflexivity. }
      assert (Hfrac : forall l,
                existsb is_fractional
                  (map (valueOf key)
                     (filter (fun f => is_real_number (valueOf key f)) l))
                = existsb is_fractional (map (valueOf key) l)).
      { induction l as [|f l IH]; simpl; [reflexivity|].
        destruct (is_real_number (valueOf key f)) eqn:Ef; simpl; rewrite IH;
          [reflexivity|].
        replace (is_fractional (valueOf key f)) with false; [reflexivity|].
        destruct (valueOf key f) as [| |b|x|t]; simpl in *; try reflexivity.
        now rewrite Ef. }
      now rewrite Hreal, Hfrac.
    + apply Forall_forall. intros f Hf. apply filter_In in Hf.
      rewrite Forall_forall in H. apply H, Hf.
Qed.

(** The amended C1 at the four value lists of the specification. *)
Lemma C1_witness :
  fieldTypeOf "k" (map (withProperty "k") [VNum (of_Z 1); VNum (of_Z 2); VNum (of_Z 3)])
  = Returned "integer"
  /\ fieldTypeOf "k"
       (map (withProperty "k") [VNum (of_Z 1); VNum (Decimal false 25 (-1)); VNum (of_Z 3)])
     = Returned "double"
  /\ fieldTypeOf "k" [] = Returned "string"
  /\ fieldTypeOf "k" (map (withProperty "k") [VNum (of_Z 1); VStr "a"; VNum (of_Z 3)])
     = Returned "integer".
Proof.
  assert (Hp : forall vs, Forall (fun f => properties f <> None)
                                 (map (withProperty "k") vs)).
  { intros vs. apply Forall_forall. intros f Hf. apply in_map_iff in Hf.
    destruct Hf as (v & <- & _). discriminate. }
  split; [|split; [|split]].
  - exact (proj1 (C1_field_type_from_numbers_only "k" _ (Hp _))).
  - exact (proj1 (C1_field_type_from_numbers_only "k" _ (Hp _))).
  - exact (proj1 (C1_field_type_from_numbers_only "k" [] (Forall_nil _))).
  - exact (proj1 (C1_field_type_from_numbers_only "k" _ (Hp _))).
Defined.

(* ================================================================== *)
(** * Geometry conversion and the graphics of a layer *)
(* ================================================================== *)

Lemma forEach_push (rings acc : list coords) :
  forEach (Arr rings) (fun allRings ring => Returned (allRings ++ [ring])) acc
  = Returned (acc ++ rings).
Proof.
  unfold forEach. revert acc.
  induction rings as [|r rings IH]; intros acc; simpl.
  - now rewrite app_nil_r.
  - rewrite IH. now rewrite <- app_assoc.
Qed.

Lemma flatten_from (parts : list (list coords)) (acc : list coords) :
  fold_left
    (fun acc polygon =>
       allRings <- acc ;;
       forEach polygon (fun allRings ring => Returned (allRings ++ [ring])) allRings)
    (map Arr parts) (Returned acc)
  = Returned (acc ++ List.concat parts).
Proof.
  revert acc.
  induction parts as [|p parts IH]; intros acc; cbn [map fold_left bind List.concat].
  - now rewrite app_nil_r.
  - rewrite forEach_push, IH. now rewrite app_assoc.
Qed.

(** Flattening a list of polygon parts yields their rings, part after
    part. *)
Lemma flatten_rings_parts (parts : list (list coords)) :
  flatten_rings (Arr (map Arr parts)) = Returned (List.concat parts).
Proof. unfold flatten_rings, forEach at 1. apply flatten_from. Qed.

(** C5: a multipolygon converts to one geometry tagged "polygon" whose
    ring list is the concatenation of the rings of its parts, part after
    part; two parts of 2 and 3 rings give exactly those 5 rings in order. *)
Theorem C5_multipolygon_flattening (t : string) :
  toLowerCase t = "multipolygon" ->
  (forall r1 r2 r3 r4 r5,
      exists g,
        convertGeometry
          (Some {| geometry_type := t;
                   coordinates := Arr [Arr [r1; r2]; Arr [r3; r4; r5]] |})
        = Returned (Some g)
        /\ g = EsriPolygon (Arr [r1; r2; r3; r4; r5])
        /\ esri_type g = "polygon")
  /\ (forall parts,
        convertGeometry
          (Some {| geometry_type := t; coordinates := Arr (map Arr parts) |})
        = Returned (Some (EsriPolygon (Arr (List.concat parts))))).
Proof.
  intros Ht.
  assert (H : forall parts,
            convertGeometry
              (Some {| geometry_type := t; coordinates := Arr (map Arr parts) |})
            = Returned (Some (EsriPolygon (Arr (List.concat parts))))).
  { intros parts. unfold convertGeometry. cbn [geometry_type coordinates].
    rewrite Ht. cbn [String.eqb Ascii.eqb Bool.eqb].
    now rewrite flatten_rings_parts. }
  split; [|exact H].
  intros r1 r2 r3 r4 r5. eexists. split; [|split; reflexivity].
  exact (H [[r1; r2]; [r3; r4; r5]]).
Qed.

(** C5 at a multipolygon of two parts, the first with a hole, the second
    with two. *)
Lemma C5_witness :
  convertGeometry
    (Some {| geometry_type := "MultiPolygon";
             coordinates := Arr [Arr [ring 0 0; ring 1 1];
                                 Arr [ring 10 10; ring 11 11; ring 12 12]] |})
  = Returned (Some (EsriPolygon
                      (Arr [ring 0 0; ring 1 1; ring 10 10; ring 11 11; ring 12 12]))).
Proof.
  exact (proj2 (C5_multipolygon_flattening "MultiPolygon" eq_refl)
               [[ring 0 0; ring 1 1]; [ring 10 10; ring 11 11; ring 12 12]]).
Defined.

(** ** The graphics of a feature list *)

Lemma mapGraphics_app (i : nat) (l1 l2 : list Feature) :
  mapGraphics i (l1 ++ l2)
  = (a <- mapGraphics i l1 ;;
     b <- mapGraphics (i + List.length l1) l2 ;;
     Returned (a ++ b)).
Proof.
  revert i. induction l1 as [|f l1 IH]; intros i; simpl.
  - rewrite Nat.add_0_r. now destruct (mapGraphics i l2).
  - destruct (toGraphic i f) as [g|]; simpl; [|reflexivity].
    rewrite IH. replace (i + 1 + List.length l1) with (i + S (List.length l1)) by lia.
    destruct (mapGraphics (i + 1) l1) as [a|]; simpl; [|reflexivity].
    now destruct (mapGraphics (i + S (List.length l1)) l2).
Qed.

Lemma graphicsFrom_app (i : nat) (l1 l2 : list Feature) :
  graphicsFrom i (l1 ++ l2)
  = (a <- graphicsFrom i l1 ;;
     b <- graphicsFrom (i + List.length l1) l2 ;;
     Returned (a ++ b)).
Proof.
  unfold graphicsFrom. rewrite mapGraphics_app.
  destruct (mapGraphics i l1) as [a|]; simpl; [|reflexivity].
  destruct (mapGraphics (i + List.length l1) l2) as [b|]; simpl; [|reflexivity].
  now rewrite filter_app.
Qed.

Lemma graphicsFrom_cons (i : nat) (f : Feature) (fs : list Feature) :
  graphicsFrom i (f :: fs)
  = (g <- toGraphic i f ;;
     rest <- graphicsFrom (i + 1) fs ;;
     Returned (if has_geometry g then g :: rest else rest)).
Proof.
  unfold graphicsFrom. simpl.
  destruct (toGraphic i f) as [g|]; simpl; [|reflexivity].
  now destruct (mapGraphics (i + 1) fs).
Qed.

Lemma graphicsFrom_length (i : nat) (fs : list Feature) (src : list Graphic) :
  graphicsFrom i fs = Returned src -> List.length src <= List.length fs.
Proof.
  unfold graphicsFrom.
  assert (H : forall j gs, mapGraphics j fs = Returned gs ->
                           List.length gs = List.length fs).
  { induction fs as [|f fs IH]; intros j gs; simpl.
    - now intros [= <-].
    - destruct (toGraphic j f); simpl; [|discriminate].
      destruct (mapGraphics (j + 1) fs) eqn:E; simpl; [|discriminate].
      intros [= <-]. simpl. f_equal. eapply IH, E. }
  destruct (mapGraphics i fs) as [gs|] eqn:E; simpl; [|discriminate].
  intros [= <-]. rewrite <- (H _ _ E). apply filter_length_le.
Qed.

Lemma unsupported_converts_to_null (f : Feature) :
  unsupported f -> convertGeometry (geometry f) = Returned None.
Proof.
  unfold unsupported, convertGeometry, recognized.
  destruct (geometry f) as [g|]; [|reflexivity].
  cbn [existsb]. intros H.
  repeat (apply orb_false_iff in H; destruct H as [?E H]).
  now rewrite E, E0, E1, E2, E3, E4.
Qed.

Lemma unsupported_graphic (i : nat) (f : Feature) :
  unsupported f ->
  toGraphic i f
  = Returned {| graphic_geometry := None; attributes := makeAttributes i f |}.
Proof.
  intros H. unfold toGraphic. now rewrite unsupported_converts_to_null.
Qed.

(** A feature without usable geometry leaves no graphic, and the features
    around it keep their positions. *)
Lemma graphicsFrom_skips_unsupported (f : Feature) (i : nat) (pre post : list Feature) :
  unsupported f ->
  graphicsFrom i (pre ++ f :: post)
  = (a <- graphicsFrom i pre ;;
     b <- graphicsFrom (i + List.length pre + 1) post ;;
     Returned (a ++ b)).
Proof.
  intros H. rewrite graphicsFrom_app, graphicsFrom_cons.
  rewrite unsupported_graphic by exact H. simpl.
  destruct (graphicsFrom i pre) as [a|]; simpl; [|reflexivity].
  now destruct (graphicsFrom (i + List.length pre + 1) post).
Qed.



(* ================================================================== *)
(** * Object ids of the graphics *)
(* ================================================================== *)

Lemma of_nat_injective (n m : nat) : of_nat n = of_nat m -> n = m.
Proof.
  unfold of_nat, of_Z. intros H. apply Nat2Z.inj.
  destruct (Z.of_nat n), (Z.of_nat m); congruence.
Qed.

(** Copying properties leaves a key they do not define as it was. *)
Lemma spread_keeps (base p : object value) (k : string) :
  get p k = None -> get (spread base p) k = get base k.
Proof.
  intros H. unfold spread.
  assert (Hk : ~ In k (map fst (entries p))).
  { intros Hin. apply get_None_not_In in H. apply H.
    eapply Permutation_in; [|exact Hin]. apply Permutation_map, entries_perm. }
  revert base Hk. induction (entries p) as [|[k' v'] es IH]; intros base Hk; simpl.
  - reflexivity.
  - rewrite IH by (intros Hin; apply Hk; now right).
    apply get_set_other. intros ->. apply Hk. now left.
Qed.

Lemma plain_attributes (i : nat) (f : Feature) :
  plain_properties f ->
  get (makeAttributes i f) "OBJECTID" = Some (VNum (of_nat (i + 1)))
  /\ get (makeAttributes i f) "FID" = Some (VNum (of_nat (i + 1))).
Proof.
  unfold plain_properties, makeAttributes.
  destruct (properties f) as [p|]; [|split; reflexivity].
  intros [Ho Hf]. now rewrite !spread_keeps.
Qed.

Lemma toGraphic_attributes (i : nat) (f : Feature) (g : Graphic) :
  toGraphic i f = Returned g -> attributes g = makeAttributes i f.
Proof.
  unfold toGraphic. destruct (convertGeometry (geometry f)); simpl; [|discriminate].
  now intros [= <-].
Qed.

Lemma mapGraphics_nth (fs : list Feature) (i : nat) (gs : list Graphic)
    (r : nat) (f : Feature) :
  mapGraphics i fs = Returned gs -> nth_error fs r = Some f ->
  exists g, nth_error gs r = Some g /\ toGraphic (i + r) f = Returned g.
Proof.
  revert i gs r. induction fs as [|f0 fs IH]; intros i gs r; simpl.
  - destruct r; discriminate.
  - destruct (toGraphic i f0) as [g0|] eqn:E0; simpl; [|discriminate].
    destruct (mapGraphics (i + 1) fs) as [gs'|] eqn:E; simpl; [|discriminate].
    intros [= <-]. destruct r as [|r]; simpl.
    + intros [= <-]. exists g0. now rewrite Nat.add_0_r.
    + intros Hr. destruct (IH _ _ _ E Hr) as (g & Hg & Hc).
      exists g. split; [exact Hg|].
      now replace (i + S r) with (i + 1 + r) by lia.
Qed.

Lemma contiguous_at (l1 l2 : list (option value)) (x : option value) :
  contiguous (l1 ++ x :: l2) -> x = Some (VNum (of_nat (List.length l1 + 1))).
Proof.
  unfold contiguous. intros H.
  assert (Hx : nth (List.length l1) (l1 ++ x :: l2) (Some (VNum (of_nat 0))) = x)
    by apply nth_middle.
  rewrite H in Hx at 1.
  rewrite (map_nth (fun i => Some (VNum (of_nat i)))) in Hx.
  rewrite seq_nth in Hx by (rewrite length_app; simpl; lia).
  rewrite <- Hx. do 3 f_equal. lia.
Qed.

(** C10 (as stated) fails: a feature whose properties define OBJECTID
    keeps its own value there, because the properties are copied over the
    generated ids. *)
Lemma C10_counterexample :
  exists g,
    graphicsOf [pointFeature 1 2 (Some [("OBJECTID", VStr "x")])] = Returned [g]
    /\ objectId g = Some (VStr "x")
    /\ objectId g <> Some (VNum (of_nat 1)).
Proof.
  eexists. split; [reflexivity|]. split; [reflexivity | discriminate].
Qed.

(** C10 (amended): for every feature whose properties define neither
    OBJECTID nor FID, the graphic made from it carries OBJECTID and FID
    equal to the feature's 1-based position in the input array; the ids are
    set when the graphic is made, and the layer's graphics are those that
    keep a geometry when the null ones are filtered out afterwards.  Hence,
    when all features are of that kind and a dropped feature precedes a kept
    one, the OBJECTID sequence of the layer is not 1, 2, ..., n. *)
Theorem C10_object_ids_are_input_positions (fs : list Feature) (gs : list Graphic) :
  mapGraphics 0 fs = Returned gs ->
  graphicsOf fs = Returned (filter has_geometry gs)
  /\ (forall r f, nth_error fs r = Some f -> plain_properties f ->
        exists g, nth_error gs r = Some g
                  /\ objectId g = Some (VNum (of_nat (r + 1)))
                  /\ fid g = Some (VNum (of_nat (r + 1))))
  /\ (forall pre d mid k post,
        fs = pre ++ d :: mid ++ k :: post ->
        unsupported d -> kept k -> plain_properties k ->
        ~ contiguous (map objectId (filter has_geometry gs))).
Proof.
  intros Hgs.
  assert (Hids : forall r f, nth_error fs r = Some f -> plain_properties f ->
             exists g, nth_error gs r = Some g
                       /\ objectId g = Some (VNum (of_nat (r + 1)))
                       /\ fid g = Some (VNum (of_nat (r + 1)))).
  { intros r f Hr Hp. destruct (mapGraphics_nth _ _ _ _ _ Hgs Hr) as (g & Hg & Hc).
    exists g. split; [exact Hg|]. unfold objectId, fid.
    rewrite (toGraphic_attributes _ _ _ Hc). simpl. now apply plain_attributes. }
  assert (Hsrc : graphicsOf fs = Returned (filter has_geometry gs)).
  { unfold graphicsOf, graphicsFrom. now rewrite Hgs. }
  split; [exact Hsrc|]. split; [exact Hids|].
  intros pre d mid k post -> Hd [e He] Hk Hcont.
  unfold graphicsOf in Hsrc.
  rewrite graphicsFrom_skips_unsupported in Hsrc by exact Hd.
  destruct (graphicsFrom 0 pre) as [a|] eqn:Ea; simpl in Hsrc; [|discriminate].
  rewrite graphicsFrom_app, graphicsFrom_cons in Hsrc.
  destruct (graphicsFrom (List.length pre + 1) mid) as [b|] eqn:Eb;
    simpl in Hsrc; [|discriminate].
  destruct (toGraphic (List.length pre + 1 + List.length mid) k) as [gk|] eqn:Ek;
    simpl in Hsrc; [|discriminate].
  destruct (graphicsFrom (List.length pre + 1 + List.length mid + 1) post)
    as [rest|]; simpl in Hsrc; [|discriminate].
  assert (Hkept : has_geometry gk = true).
  { unfold toGraphic in Ek. rewrite He in Ek. simpl in Ek.
    now injection Ek as <-. }
  rewrite Hkept in Hsrc. injection Hsrc as Hsrc. rewrite <- Hsrc in Hcont.
  rewrite app_assoc, map_app in Hcont. simpl in Hcont.
  apply contiguous_at in Hcont.
  unfold objectId in Hcont at 1.
  rewrite (toGraphic_attributes _ _ _ Ek) in Hcont.
  rewrite (proj1 (plain_attributes _ _ Hk)) in Hcont.
  injection Hcont as Hcont. apply of_nat_injective in Hcont.
  rewrite length_map, length_app in Hcont.
  apply graphicsFrom_length in Ea, Eb. lia.
Qed.

(** The amended C10 at three features without OBJECTID or FID among their
    properties: a point, a feature without geometry, a point.  The layer's
    object ids are 1 and 3. *)
Lemma C10_witness :
  let fs := [pointFeature 1 1 None;
             {| geometry := None; properties := Some [("name", VStr "n")] |};
             pointFeature 3 3 (Some [("name", VStr "p")])] in
  exists gs,
    mapGraphics 0 fs = Returned gs
    /\ map objectId (filter has_geometry gs)
       = [Some (VNum (of_nat 1)); Some (VNum (of_nat 3))]
    /\ ~ contiguous (map objectId (filter has_geometry gs)).
Proof.
  intros fs. eexists. split; [reflexivity|]. split; [reflexivity|].
  refine (proj2 (proj2 (C10_object_ids_are_input_positions fs _ eq_refl))
            [pointFeature 1 1 None]
            {| geometry := None; properties := Some [("name", VStr "n")] |}
            [] (pointFeature 3 3 (Some [("name", VStr "p")])) []
            eq_refl _ _ _).
  - exact I.
  - eexists. reflexivity.
  - split; reflexivity.
Defined.

(* ================================================================== *)
(** * The classification renderer *)
(* ================================================================== *)

Lemma mapWithIndex_nth {A B : Type} (f : A -> nat -> B) (l : list A) (j i : nat) :
  nth_error (mapWithIndex f j l) i
  = option_map (fun x => f x (j + i)) (nth_error l i).
Proof.
  revert j i. induction l as [|x l IH]; intros j [|i]; simpl; try reflexivity.
  - now rewrite Nat.add_0_r.
  - rewrite IH. now replace (j + 1 + i) with (j + S i) by lia.
Qed.

Lemma mapWithIndex_length {A B : Type} (f : A -> nat -> B) (l : list A) (j : nat) :
  List.length (mapWithIndex f j l) = List.length l.
Proof. revert j. induction l as [|x l IH]; intros j; simpl; [|rewrite IH]; reflexivity. Qed.

(** The colour at position [i] is the palette colour at [i] modulo the
    palette length. *)
Lemma generateColors_nth (count i : nat) :
  i < count ->
  nth i (generateColors count) [] = nth (i mod List.length palette) palette [].
Proof.
  intros H. unfold generateColors.
  rewrite (nth_indep _ [] (nth (0 mod List.length palette) palette []))
    by now rewrite length_map, length_seq.
  rewrite (map_nth (fun i => nth (i mod List.length palette) palette [])).
  now rewrite seq_nth.
Qed.

Lemma generateColors_length (count : nat) : List.length (generateColors count) = count.
Proof. unfold generateColors. now rewrite length_map, length_seq. Qed.

Lemma classSymbol_color (layerGeometryType : string) (color : list number) :
  symbol_color (classSymbol layerGeometryType color) = color.
Proof.
  unfold classSymbol.
  destruct (String.eqb layerGeometryType "point"); [reflexivity|].
  destruct (String.eqb layerGeometryType "polyline"); reflexivity.
Qed.

(** C8: building the renderer is a function of sortedValues, the geometry
    type and the field alone, so two builds from statistics with the same
    sortedValues give the same ordered rule list; rule [i] is made from
    entry [i] of sortedValues and its colour is
    palette[i mod palette-length]. *)
Theorem C8_renderer_deterministic
    (stats1 stats2 : FieldStats) (layerGeometryType field : string) :
  sortedValues stats1 = sortedValues stats2 ->
  classificationRenderer stats1 layerGeometryType field
  = classificationRenderer stats2 layerGeometryType field
  /\ exists infos,
       classificationRenderer stats1 layerGeometryType field
       = UniqueValueRenderer field infos (createDefaultSymbol layerGeometryType) LabelOther
       /\ List.length infos = List.length (sortedValues stats1)
       /\ forall i info,
            nth_error infos i = Some info ->
            symbol_color (info_symbol info)
            = nth (i mod List.length palette) palette []
            /\ exists value count,
                 nth_error (sortedValues stats1) i = Some (value, count)
                 /\ info_value info = value
                 /\ info_label info
                    = (value ++ " (" ++ String_number (of_nat count) ++ ")")%string.
Proof.
  intros H. split; [unfold classificationRenderer; now rewrite H|].
  eexists. split; [reflexivity|]. split; [apply mapWithIndex_length|].
  intros i info Hi. rewrite mapWithIndex_nth in Hi.
  destruct (nth_error (sortedValues stats1) i) as [[value count]|] eqn:E;
    simpl in Hi; [|discriminate].
  injection Hi as <-. unfold uniqueValueInfo. cbn [info_symbol info_value info_label].
  split.
  - rewrite classSymbol_color. apply generateColors_nth.
    apply nth_error_Some. congruence.
  - exists value, count. repeat split.
Qed.

(** C8 at two statistics records that differ outside sortedValues. *)
Lemma C8_witness :
  classificationRenderer
    {| totalFeatures := 6; validCount := 4; uniqueCount := 3;
       sortedValues := [("A", 2); ("B", 1); ("C", 1)]; fieldName := "f" |}
    "polygon" "f"
  = classificationRenderer
      {| totalFeatures := 9; validCount := 4; uniqueCount := 3;
         sortedValues := [("A", 2); ("B", 1); ("C", 1)]; fieldName := "g" |}
      "polygon" "f".
Proof.
  exact (proj1 (C8_renderer_deterministic _ _ "polygon" "f" eq_refl)).
Defined.

(* ================================================================== *)
(** * Applying a classification *)
(* ================================================================== *)

Lemma no_valid_values_no_buckets (q : Query) (layer : FeatureLayer)
    (field : string) (stats : FieldStats) :
  analyzeFieldValues q layer field = Some stats ->
  validCount stats = 0 -> uniqueCount stats = 0.
Proof.
  intros H. apply analyzeFieldValues_Some in H.
  destruct H as (features & _ & _ & ->). cbn [validCount uniqueCount].
  intros H0. apply length_zero_iff_nil in H0. now rewrite H0.
Qed.

(** C7: when no field is chosen, when no layer is current, when the
    statistics of the chosen field are unavailable, or when they show no
    valid value, [applyFieldClassification] shows one alert and changes no
    layer: the renderers, the legend and the panel stay as they were. *)
Theorem C7_classification_aborts_without_change (q : Query) (p : Page) :
  (fieldSelect_value p = ""
   \/ currentClassificationLayer p = None
   \/ exists ref layer,
        currentClassificationLayer p = Some ref
        /\ nth_error (layers p) ref = Some layer
        /\ (analyzeFieldValues q layer (fieldSelect_value p) = None
            \/ exists stats,
                 analyzeFieldValues q layer (fieldSelect_value p) = Some stats
                 /\ validCount stats = 0)) ->
  let p' := applyFieldClassification q p in
  (alerts p' = alerts p ++ [AlertChooseField]
   \/ alerts p' = alerts p ++ [AlertNoValidValues])
  /\ layers p' = layers p
  /\ currentClassificationLayer p' = currentClassificationLayer p
  /\ fieldSelect_value p' = fieldSelect_value p
  /\ mapLegend p' = mapLegend p
  /\ mapLegend_hidden p' = mapLegend_hidden p
  /\ classificationPanel_hidden p' = classificationPanel_hidden p.
Proof.
  intros H. unfold applyFieldClassification.
  destruct (currentClassificationLayer p) as [ref|] eqn:Ec;
    [|cbn; rewrite Ec; tauto].
  destruct (String.eqb (fieldSelect_value p) "") eqn:Ef;
    [cbn; rewrite Ec; tauto|].
  destruct H as [H|[H|(ref' & layer & Hr & Hl & H)]].
  - rewrite H in Ef. discriminate.
  - discriminate.
  - injection Hr as <-. cbn [layers set_applyBtn]. rewrite Hl. unfold classify.
    destruct H as [H|(stats & H & H0)]; rewrite H.
    + cbn. rewrite Ec. tauto.
    + rewrite (no_valid_values_no_buckets _ _ _ _ H H0). cbn. rewrite Ec. tauto.
Qed.

(** C7 on a page whose current layer holds only null and empty values in
    the chosen field. *)
Lemma C7_witness :
  let p := samplePage (sampleLayer [VNull; VStr ""; VNull]) "f" in
  alerts (applyFieldClassification sourceQuery p) = [AlertNoValidValues]
  /\ layers (applyFieldClassification sourceQuery p) = layers p.
Proof.
  intros p.
  destruct (C7_classification_aborts_without_change sourceQuery p) as (Ha & Hl & _).
  - right. right. exists 0, (sampleLayer [VNull; VStr ""; VNull]).
    split; [reflexivity|]. split; [reflexivity|]. right.
    eexists. split; reflexivity.
  - split; [reflexivity | exact Hl].
Defined.

(* ================================================================== *)
(** * More on the geometry conversion *)
(* ================================================================== *)

Lemma bind_Thrown_fold {S : Type} (f : S -> coords -> outcome S) (l : list coords) :
  fold_left (fun acc x => s <- acc ;; f s x) l Thrown = Thrown.
Proof. induction l as [|x l IH]; simpl; [reflexivity | exact IH]. Qed.

Lemma flatten_throws_from (l : list coords) (acc : list coords) :
  fold_left
    (fun acc polygon =>
       allRings <- acc ;;
       forEach polygon (fun allRings ring => Returned (allRings ++ [ring])) allRings)
    l (Returned acc)
  = Thrown
  <-> forallb is_array l = false.
Proof.
  revert acc. induction l as [|p l IH]; intros acc; cbn [fold_left bind forallb].
  - split; discriminate.
  - destruct p as [x|rings].
    + cbn [forEach is_array andb]. rewrite bind_Thrown_fold. tauto.
    + rewrite forEach_push. cbn [is_array andb]. apply IH.
Qed.

Lemma flatten_rings_throws (c : coords) :
  flatten_rings c = Thrown <-> array_of_arrays c = false.
Proof.
  destruct c as [x|l]; simpl; [tauto|].
  unfold flatten_rings, forEach at 1. apply flatten_throws_from.
Qed.

Lemma recognized_tagFor (t : string) :
  recognized t = true <-> tagFor (toLowerCase t) <> None.
Proof.
  unfold recognized, tagFor. cbn [existsb].
  destruct (String.eqb (toLowerCase t) "point"); [split; [discriminate|reflexivity]|].
  destruct (String.eqb (toLowerCase t) "linestring"); [split; [discriminate|reflexivity]|].
  destruct (String.eqb (toLowerCase t) "polygon"); [split; [discriminate|reflexivity]|].
  destruct (String.eqb (toLowerCase t) "multipoint"); [split; [discriminate|reflexivity]|].
  destruct (String.eqb (toLowerCase t) "multilinestring"); [split; [discriminate|reflexivity]|].
  destruct (String.eqb (toLowerCase t) "multipolygon"); [split; [discriminate|reflexivity]|].
  simpl. split; [discriminate | congruence].
Qed.

Lemma convertGeometry_cases (g : Geometry) :
  match convertGeometry (Some g) with
  | Returned (Some e) =>
      tagFor (toLowerCase (geometry_type g)) = Some (esri_type e)
  | Returned None => recognized (geometry_type g) = false
  | Thrown =>
      toLowerCase (geometry_type g) = "multipolygon"
      /\ array_of_arrays (coordinates g) = false
  end.
Proof.
  unfold convertGeometry, tagFor, recognized. cbn [existsb].
  destruct (String.eqb (toLowerCase (geometry_type g)) "point"); [reflexivity|].
  destruct (String.eqb (toLowerCase (geometry_type g)) "linestring"); [reflexivity|].
  destruct (String.eqb (toLowerCase (geometry_type g)) "polygon"); [reflexivity|].
  destruct (String.eqb (toLowerCase (geometry_type g)) "multipoint"); [reflexivity|].
  destruct (String.eqb (toLowerCase (geometry_type g)) "multilinestring");
    [reflexivity|].
  destruct (String.eqb (toLowerCase (geometry_type g)) "multipolygon") eqn:E;
    [|reflexivity].
  apply String.eqb_eq in E.
  destruct (flatten_rings (coordinates g)) as [rings|] eqn:F; simpl.
  - reflexivity.
  - split; [exact E | now apply flatten_rings_throws].
Qed.

(** A multipolygon with coordinates that are not an array of arrays is what
    makes the conversion throw. *)
Lemma convertGeometry_throws (g : Geometry) :
  toLowerCase (geometry_type g) = "multipolygon"
  /\ array_of_arrays (coordinates g) = false
  <-> convertGeometry (Some g) = Thrown.
Proof.
  split.
  - intros [Hm Ha]. unfold convertGeometry. rewrite Hm.
    cbn [String.eqb Ascii.eqb Bool.eqb].
    apply flatten_rings_throws in Ha. now rewrite Ha.
  - intros H. pose proof (convertGeometry_cases g) as Hc. now rewrite H in Hc.
Qed.

(* ================================================================== *)
(** * More on graphics, attributes and fields *)
(* ================================================================== *)

Lemma NoDup_keys_get {A : Type} (o o' : object A) (k : string) :
  NoDup (map fst o) -> Permutation o o' -> get o' k = get o k.
Proof.
  intros Hnd Hp.
  assert (Hnd' : NoDup (map fst o'))
    by (eapply Permutation_NoDup; [apply Permutation_map, Hp | exact Hnd]).
  destruct (get o k) as [v|] eqn:G.
  - apply In_get_Some; [exact Hnd'|].
    eapply Permutation_in; [exact Hp | now apply get_Some_In].
  - apply get_None_not_In. intros Hin. apply get_None_not_In in G. apply G.
    eapply Permutation_in; [apply Permutation_map, Permutation_sym, Hp | exact Hin].
Qed.

(** Writing a list of properties with distinct keys onto an object: the
    written ones read back, the others read as before. *)
Lemma get_after_writes {A : Type} (es : list (string * A)) (base : object A) (k : string) :
  NoDup (map fst es) ->
  get (fold_left (fun acc e => set acc (fst e) (snd e)) es base) k
  = match get es k with Some v => Some v | None => get base k end.
Proof.
  revert base. induction es as [|[k' v'] es IH]; intros base Hnd; simpl.
  - reflexivity.
  - inversion Hnd as [|? ? Hk Hes]; subst. rewrite IH by exact Hes.
    destruct (String.eqb k k') eqn:E.
    + apply String.eqb_eq in E. subst k'.
      replace (get es k) with (@None A)
        by (symmetry; now apply get_None_not_In).
      apply get_set_same.
    + apply String.eqb_neq in E.
      destruct (get es k); [reflexivity|]. now apply get_set_other.
Qed.

Lemma spread_get {A : Type} (base p : object A) (k : string) :
  NoDup (map fst p) ->
  get (spread base p) k
  = match get p k with Some v => Some v | None => get base k end.
Proof.
  intros Hnd. unfold spread.
  assert (Hp : Permutation p (entries p)) by apply Permutation_sym, entries_perm.
  rewrite get_after_writes.
  - now rewrite (NoDup_keys_get p (entries p) k Hnd Hp).
  - eapply Permutation_NoDup; [apply Permutation_map, Hp | exact Hnd].
Qed.

(** X1: every property of a feature reaches the attributes of its graphic
    unchanged, also one called OBJECTID or FID; a key the properties do not
    have reads as undefined, except for OBJECTID and FID, which then hold
    the position-based id. *)
Theorem X1_properties_kept_in_attributes
    (index : nat) (f : Feature) (p : object value) (k : string) :
  properties f = Some p -> NoDup (map fst p) ->
  get (makeAttributes index f) k
  = match get p k with
    | Some v => Some v
    | None => if String.eqb k "OBJECTID" || String.eqb k "FID"
              then Some (VNum (of_nat (index + 1)))
              else None
    end.
Proof.
  intros Hp Hnd. unfold makeAttributes. rewrite Hp, spread_get by exact Hnd.
  destruct (get p k); [reflexivity|]. simpl.
  destruct (String.eqb k "OBJECTID"); [reflexivity|].
  destruct (String.eqb k "FID"); reflexivity.
Qed.

(** X1 at the third feature of a list, with the properties name and FID. *)
Lemma X1_witness :
  get (makeAttributes 2
         {| geometry := None;
            properties := Some [("name", VStr "well"); ("FID", VStr "w-7")] |})
      "FID"
  = Some (VStr "w-7")
  /\ get (makeAttributes 2
            {| geometry := None;
               properties := Some [("name", VStr "well"); ("FID", VStr "w-7")] |})
         "OBJECTID"
     = Some (VNum (of_nat 3)).
Proof.
  assert (Hnd : NoDup (map fst [("name", VStr "well"); ("FID", VStr "w-7")])).
  { simpl. repeat constructor; simpl; intuition discriminate. }
  split.
  - exact (X1_properties_kept_in_attributes 2
             {| geometry := None;
                properties := Some [("name", VStr "well"); ("FID", VStr "w-7")] |}
             [("name", VStr "well"); ("FID", VStr "w-7")] "FID" eq_refl Hnd).
  - exact (X1_properties_kept_in_attributes 2
             {| geometry := None;
                properties := Some [("name", VStr "well"); ("FID", VStr "w-7")] |}
             [("name", VStr "well"); ("FID", VStr "w-7")] "OBJECTID" eq_refl Hnd).
Defined.

(** The ids of the graphics made from position [i] on are increasing and
    lie in the positions they were made from. *)
Lemma objectIds_from (fs : list Feature) (i : nat) (src : list Graphic) :
  Forall plain_properties fs ->
  graphicsFrom i fs = Returned src ->
  exists ids,
    map objectId src = map idValue ids
    /\ map fid src = map idValue ids
    /\ StronglySorted lt ids
    /\ Forall (fun n => i < n <= i + List.length fs) ids.
Proof.
  intros Hplain. revert i src.
  induction Hplain as [|f fs Hf Hfs IH]; intros i src.
  - unfold graphicsFrom. simpl. intros [= <-]. exists []. repeat split; constructor.
  - rewrite graphicsFrom_cons.
    destruct (toGraphic i f) as [g|] eqn:Eg; simpl; [|discriminate].
    destruct (graphicsFrom (i + 1) fs) as [rest|] eqn:Er; simpl; [|discriminate].
    destruct (IH _ _ Er) as (ids & Ho & Hfid & Hs & Hb).
    assert (Hb' : Forall (fun n => i < n <= i + S (List.length fs)) ids).
    { eapply Forall_impl; [|exact Hb]. simpl. intros n Hn. lia. }
    intros [= <-]. destruct (has_geometry g).
    + exists (i + 1 :: ids). simpl.
      unfold objectId at 1, fid at 1. rewrite (toGraphic_attributes _ _ _ Eg).
      destruct (plain_attributes i f Hf) as [-> ->].
      rewrite Ho, Hfid. repeat split.
      * constructor; [exact Hs|].
        eapply Forall_impl; [|exact Hb]. simpl. intros n Hn. lia.
      * constructor; [simpl; lia | exact Hb'].
    + exists ids. repeat split; assumption.
Qed.

Lemma NoDup_idValue (l : list nat) : NoDup l -> NoDup (map idValue l).
Proof.
  induction 1 as [|a l Ha Hl IH]; simpl; constructor; [|exact IH].
  intros Hin. apply in_map_iff in Hin. destruct Hin as (b & Hb & Hin).
  injection Hb as Hb. apply of_nat_injective in Hb. now subst.
Qed.

Lemma StronglySorted_lt_NoDup (l : list nat) : StronglySorted lt l -> NoDup l.
Proof.
  induction 1 as [|a l Hl IH Ha]; constructor; [|exact IH].
  intros Hin. rewrite Forall_forall in Ha. specialize (Ha a Hin). lia.
Qed.

(** X2: when no feature defines OBJECTID or FID among its properties, the
    graphics of the layer carry ids that increase strictly along the layer,
    lie between 1 and the number of input features, and agree between
    OBJECTID and FID; in particular no two graphics share an OBJECTID. *)
Theorem X2_object_ids_increase (fs : list Feature) (src : list Graphic) :
  Forall plain_properties fs ->
  graphicsOf fs = Returned src ->
  exists ids,
    map objectId src = map idValue ids
    /\ map fid src = map idValue ids
    /\ StronglySorted lt ids
    /\ Forall (fun n => 1 <= n <= List.length fs) ids
    /\ NoDup (map objectId src).
Proof.
  intros Hplain Hsrc.
  destruct (objectIds_from fs 0 src Hplain Hsrc) as (ids & Ho & Hf & Hs & Hb).
  exists ids.
  split; [exact Ho|]. split; [exact Hf|]. split; [exact Hs|]. split.
  - eapply Forall_impl; [|exact Hb]. simpl. intros n Hn. lia.
  - rewrite Ho. now apply NoDup_idValue, StronglySorted_lt_NoDup.
Qed.

(** X2 at four features of which the second has no geometry. *)
Lemma X2_witness :
  let fs := [pointFeature 1 1 None;
             {| geometry := None; properties := None |};
             pointFeature 3 3 (Some [("name", VStr "c")]);
             pointFeature 4 4 None] in
  exists src,
    graphicsOf fs = Returned src
    /\ map objectId src = map idValue [1; 3; 4]
    /\ NoDup (map objectId src).
Proof.
  intros fs.
  destruct (graphicsOf fs) as [src|] eqn:E; [|vm_compute in E; discriminate].
  exists src. split; [reflexivity|].
  assert (Hplain : Forall plain_properties fs).
  { repeat constructor. }
  destruct (X2_object_ids_increase fs src Hplain E) as (ids & _ & _ & _ & _ & Hnd).
  split; [|exact Hnd].
  vm_compute in E. injection E as <-. reflexivity.
Defined.

Lemma malformed_throws (f : Feature) :
  malformed f = true <-> convertGeometry (geometry f) = Thrown.
Proof.
  unfold malformed. destruct (geometry f) as [g|]; [|split; discriminate].
  rewrite <- convertGeometry_throws.
  rewrite andb_true_iff, String.eqb_eq, negb_true_iff. tauto.
Qed.

Lemma toGraphic_outcome (i : nat) (f : Feature) :
  match toGraphic i f with
  | Returned g => malformed f = false /\ has_geometry g = supported f
  | Thrown => malformed f = true
  end.
Proof.
  pose proof (malformed_throws f) as Hm.
  unfold toGraphic, supported, has_geometry in *.
  destruct (convertGeometry (geometry f)) as [e|] eqn:C; simpl.
  - split.
    + apply not_true_is_false. intros H. apply Hm in H. discriminate.
    + destruct (geometry f) as [g|]; [|simpl in C; now injection C as <-].
      pose proof (convertGeometry_cases g) as Hc. rewrite C in Hc.
      destruct e as [e|]; [|now symmetry].
      symmetry. apply recognized_tagFor. congruence.
  - now apply Hm.
Qed.

(** How the graphics of a list made from position [i] on come out. *)
Lemma graphicsFrom_outcome (fs : list Feature) (i : nat) :
  match graphicsFrom i fs with
  | Returned src =>
      forallb (fun f => negb (malformed f)) fs = true
      /\ List.length src = List.length (filter supported fs)
  | Thrown => existsb malformed fs = true
  end.
Proof.
  revert i. induction fs as [|f fs IH]; intros i.
  - unfold graphicsFrom. simpl. auto.
  - rewrite graphicsFrom_cons. pose proof (toGraphic_outcome i f) as Hf.
    specialize (IH (i + 1)). cbn [forallb existsb filter].
    destruct (toGraphic i f) as [g|]; simpl; [|now rewrite Hf].
    destruct Hf as [Hm Hg]. rewrite Hm. simpl.
    destruct (graphicsFrom (i + 1) fs) as [rest|]; simpl; [|exact IH].
    destruct IH as [Hall Hlen]. split; [exact Hall|].
    rewrite <- Hg. destruct (has_geometry g); simpl; now rewrite Hlen.
Qed.



Lemma scan_Thrown_fold (key : string) (fs : list Feature) :
  fold_left (fun acc f => s <- acc ;; scanFeature key s f) fs Thrown = Thrown.
Proof. induction fs as [|f fs IH]; simpl; [reflexivity | exact IH]. Qed.

(** The scan of one key throws exactly when a feature lacks properties. *)
Lemma scanFeatures_throws (key : string) (fs : list Feature) :
  scanFeatures key fs = Thrown <-> Exists without_properties fs.
Proof.
  unfold scanFeatures.
  generalize {| hasNumber := false; hasDecimal := false |} as s.
  induction fs as [|f fs IH]; intros s; simpl.
  - split; [discriminate | intros H; inversion H].
  - unfold scanFeature at 2, without_properties.
    destruct (properties f) as [p|] eqn:Ep.
    + assert (Hstep : exists s', match match get p key with
                                       | Some v => v
                                       | None => VUndefined
                                       end with
                                 | VNum x =>
                                     if negb (isNaN x)
                                     then Returned
                                            {| hasNumber := true;
                                               hasDecimal :=
                                                 if negb (isInteger x) then true
                                                 else hasDecimal s |}
                                     else Returned s
                                 | _ => Returned s
                                 end = Returned s').
      { destruct (get p key) as [[| |b|x|t]|]; try (now exists s).
        destruct (negb (isNaN x)); eexists; reflexivity. }
      destruct Hstep as [s' ->]. rewrite IH. split.
      * intros H. now right.
      * intros H. inversion H as [? ? H0|? ? H0]; subst; [|exact H0].
        unfold without_properties in H0. congruence.
    + rewrite scan_Thrown_fold. split; [|reflexivity].
      intros _. left. exact Ep.
Qed.

Lemma fieldTypeOf_outcome (key : string) (fs : list Feature) :
  match fieldTypeOf key fs with
  | Returned t => ~ Exists without_properties fs
                  /\ In t ["string"; "double"; "integer"]
  | Thrown => Exists without_properties fs
  end.
Proof.
  pose proof (scanFeatures_throws key fs) as H. unfold fieldTypeOf.
  destruct (scanFeatures key fs) as [s|]; simpl.
  - split.
    + intros He. apply H in He. discriminate.
    + destruct (hasNumber s); [destruct (hasDecimal s)|]; simpl; auto.
  - now apply H.
Qed.

Lemma propertyFields_outcome (ks : list string) (fs : list Feature) :
  match propertyFields ks fs with
  | Returned more =>
      (ks <> [] -> ~ Exists without_properties fs)
      /\ map name more = ks
      /\ Forall (fun f => In (field_type f) ["string"; "double"; "integer"]
                          /\ alias f = underscores_to_spaces (name f)) more
  | Thrown => ks <> [] /\ Exists without_properties fs
  end.
Proof.
  induction ks as [|key ks IH]; simpl.
  - repeat split; [congruence | constructor].
  - pose proof (fieldTypeOf_outcome key fs) as Ht.
    destruct (fieldTypeOf key fs) as [t|]; simpl.
    + destruct Ht as [Hno Hin].
      destruct (propertyFields ks fs) as [rest|]; simpl.
      * destruct IH as (_ & Hn & Hf). split; [|split].
        -- intros _. exact Hno.
        -- simpl. now rewrite Hn.
        -- constructor; [split; [exact Hin | reflexivity] | exact Hf].
      * split; [discriminate | tauto].
    + split; [discriminate | exact Ht].
Qed.

Lemma fieldsOf_shape (fs : list Feature) (fields : list Field) :
  fieldsOf fs = Returned fields ->
  exists more,
    fields = {| name := "OBJECTID"; alias := "OBJECTID"; field_type := "oid" |}
             :: {| name := "FID"; alias := "FID"; field_type := "integer" |}
             :: more
    /\ map name more = firstKeys fs
    /\ Forall (fun f => In (field_type f) ["string"; "double"; "integer"]
                        /\ alias f = underscores_to_spaces (name f)) more.
Proof.
  unfold fieldsOf, firstKeys. destruct fs as [|[g [p|]] rest].
  - intros [= <-]. exists []. repeat split. constructor.
  - pose proof (propertyFields_outcome (keys p)
                  ({| geometry := g; properties := Some p |} :: rest)) as H.
    destruct (propertyFields (keys p) _) as [more|]; simpl; [|discriminate].
    intros [= <-]. exists more. destruct H as (_ & Hn & Hf). auto.
  - intros [= <-]. exists []. repeat split. constructor.
Qed.

(** Building the field list throws exactly when the first feature has a
    property key and some feature has no properties. *)
Lemma fieldsOf_throws (fs : list Feature) :
  fieldsOf fs = Thrown <-> firstKeys fs <> [] /\ Exists without_properties fs.
Proof.
  unfold fieldsOf, firstKeys. destruct fs as [|[g [p|]] rest].
  - split; [discriminate | intros [H _]; congruence].
  - pose proof (propertyFields_outcome (keys p)
                  ({| geometry := g; properties := Some p |} :: rest)) as H.
    destruct (propertyFields (keys p) _) as [more|]; simpl.
    + destruct H as (Hno & _). split; [discriminate|].
      intros [Hk He]. now destruct (Hno Hk).
    + split; [intros _; exact H | reflexivity].
  - split; [discriminate | intros [H _]; congruence].
Qed.

(** X5: the fields of an uploaded layer are OBJECTID (object id), FID
    (integer) and one field for each property key of the first feature, in
    property order, typed string, double or integer and with the
    underscores of the key turned into spaces for the alias; keys that only
    later features have get no field.  Building them fails exactly when the
    first feature has at least one property key and some feature has no
    properties object. *)
Theorem X5_fields_from_first_feature (fs : list Feature) :
  match fieldsOf fs with
  | Returned fields =>
      map name fields = "OBJECTID" :: "FID" :: firstKeys fs
      /\ (exists oid fidField more,
            fields = oid :: fidField :: more
            /\ field_type oid = "oid" /\ field_type fidField = "integer"
            /\ Forall (fun f => In (field_type f) ["string"; "double"; "integer"]
                                /\ alias f = underscores_to_spaces (name f)) more)
      /\ (firstKeys fs <> [] -> ~ Exists without_properties fs)
  | Thrown => firstKeys fs <> [] /\ Exists without_properties fs
  end.
Proof.
  pose proof (fieldsOf_throws fs) as Hthrows.
  destruct (fieldsOf fs) as [made|] eqn:E.
  - destruct (fieldsOf_shape fs made E) as (more & -> & Hn & Ht).
    split; [simpl; now rewrite Hn|]. split.
    + eexists _, _, more. repeat split. exact Ht.
    + intros Hk He. destruct Hthrows as [_ H]. discriminate H. now split.
  - now apply Hthrows.
Qed.

(* ================================================================== *)
(** * More on the field statistics *)
(* ================================================================== *)

Lemma first_occurrences_length (l : list string) :
  List.length (first_occurrences l) <= List.length l.
Proof.
  induction l as [|x l IH] using rev_ind; [simpl; lia|].
  rewrite first_occurrences_snoc, length_app. simpl.
  destruct (existsb (String.eqb x) (first_occurrences l)); [lia|].
  rewrite length_app. simpl. lia.
Qed.

Lemma occurrences_le (k : string) (l : list string) :
  occurrences k l <= List.length l.
Proof. apply filter_length_le. Qed.

Lemma NoDup_prefix {A : Type} (n : nat) (l : list A) :
  NoDup l -> NoDup (firstn n l).
Proof.
  intros H. rewrite <- (firstn_skipn n l) in H. now apply NoDup_app_remove_r in H.
Qed.

Lemma In_prefix {A : Type} (n : nat) (l : list A) (x : A) :
  In x (firstn n l) -> In x l.
Proof.
  intros H. rewrite <- (firstn_skipn n l). apply in_or_app. now left.
Qed.

Lemma sortedBuckets_NoDup (l : list value) : NoDup (map fst (sortedBuckets l)).
Proof.
  eapply Permutation_NoDup; [|apply valueCount_NoDup].
  apply Permutation_map, Permutation_sym, sortedBuckets_perm.
Qed.

(** A bucket holds the number of valid values printed as its key. *)
Lemma sortedBuckets_count (l : list value) (k : string) (c : nat) :
  In (k, c) (sortedBuckets l) ->
  c = occurrences k (map String l) /\ 1 <= c.
Proof.
  intros Hin. apply (Permutation_in _ (sortedBuckets_perm l)) in Hin.
  pose proof (valueCount_positive l) as Hpos. rewrite Forall_forall in Hpos.
  specialize (Hpos _ Hin). simpl in Hpos. split; [|exact Hpos].
  apply In_get_Some in Hin; [|apply valueCount_NoDup].
  rewrite valueCount_get in Hin.
  destruct (occurrences k (map String l) =? 0); congruence.
Qed.






(* ================================================================== *)
(** * More on colours, renderer and legend *)
(* ================================================================== *)

Lemma generateColors_prefix (n m : nat) :
  n <= m -> generateColors n = firstn n (generateColors m).
Proof.
  intros H. unfold generateColors. rewrite firstn_map. f_equal.
  replace m with (n + (m - n)) by lia. rewrite seq_app, firstn_app.
  rewrite length_seq, Nat.sub_diag. simpl. rewrite app_nil_r.
  symmetry. apply firstn_all2. rewrite length_seq. lia.
Qed.

Lemma generateColors_13_NoDup : NoDup (generateColors 13).
Proof.
  vm_compute. repeat constructor; simpl; intuition discriminate.
Qed.

(** X9: [generateColors(count)] returns [count] colours, each taken from
    the palette, and a shorter request is a prefix of a longer one.  The
    colours are pairwise different only up to 13 of them: the palette
    repeats its second colour at the fourteenth place, so from 14 classes on
    two classes are drawn alike. *)
Theorem X9_colours_distinct_up_to_13 (count : nat) :
  List.length (generateColors count) = count
  /\ Forall (fun c => In c palette) (generateColors count)
  /\ (forall longer, count <= longer ->
        generateColors count = firstn count (generateColors longer))
  /\ (NoDup (generateColors count) <-> count <= 13).
Proof.
  split; [apply generateColors_length|]. split.
  { apply Forall_forall. intros c Hc. unfold generateColors in Hc.
    apply in_map_iff in Hc. destruct Hc as (i & <- & _).
    apply nth_In. apply Nat.mod_upper_bound. discriminate. }
  split; [intros longer; apply generateColors_prefix|].
  split.
  - intros Hnd. destruct (Nat.le_gt_cases count 13) as [H|H]; [exact H|].
    exfalso.
    assert (H1 : nth 1 (generateColors count) [] = nth 13 (generateColors count) [])
      by (rewrite !generateColors_nth by lia; reflexivity).
    apply (proj1 (NoDup_nth (generateColors count) [])) in H1;
      [discriminate | exact Hnd | |]; rewrite generateColors_length; lia.
  - intros H. rewrite (generateColors_prefix count 13 H).
    apply NoDup_prefix, generateColors_13_NoDup.
Qed.

Lemma assign_renderer_nth (ls : list FeatureLayer) (ref r : nat) (rd : Renderer) :
  nth_error (assign_renderer ls ref rd) r
  = if r =? ref then option_map (fun l => set_renderer l rd) (nth_error ls r)
    else nth_error ls r.
Proof.
  revert ref r. induction ls as [|l ls IH]; intros ref r.
  - destruct ref; simpl; destruct (r =? _); now destruct r.
  - destruct ref as [|ref], r as [|r]; simpl; try reflexivity. apply IH.
Qed.

Lemma assign_renderer_length (ls : list FeatureLayer) (ref : nat) (rd : Renderer) :
  List.length (assign_renderer ls ref rd) = List.length ls.
Proof.
  revert ref. induction ls as [|l ls IH]; intros [|ref]; simpl; auto.
Qed.

Lemma assign_renderer_same (ls : list FeatureLayer) (ref : nat) (rd : Renderer) :
  Forall2 same_but_renderer ls (assign_renderer ls ref rd).
Proof.
  assert (Hrefl : forall l, same_but_renderer l l) by (intros l; repeat split).
  revert ref. induction ls as [|l ls IH]; intros [|ref]; simpl; constructor.
  - repeat split.
  - clear IH. induction ls; constructor; auto.
  - apply Hrefl.
  - apply IH.
Qed.

Lemma assign_renderer_twice (ls : list FeatureLayer) (ref : nat) (r1 r2 : Renderer) :
  assign_renderer (assign_renderer ls ref r1) ref r2 = assign_renderer ls ref r2.
Proof.
  revert ref. induction ls as [|l ls IH]; intros [|ref]; simpl; try reflexivity.
  now rewrite IH.
Qed.

Lemma assign_renderer_own (ls : list FeatureLayer) (ref : nat) (l : FeatureLayer) :
  nth_error ls ref = Some l -> assign_renderer ls ref (renderer l) = ls.
Proof.
  revert ref. induction ls as [|l0 ls IH]; intros [|ref]; simpl; try discriminate.
  - intros [= ->]. now destruct l.
  - intros H. now rewrite IH.
Qed.

Lemma assign_renderer_beyond (ls : list FeatureLayer) (ref : nat) (rd : Renderer) :
  nth_error ls ref = None -> assign_renderer ls ref rd = ls.
Proof.
  revert ref. induction ls as [|l0 ls IH]; intros [|ref]; simpl;
    try discriminate; try reflexivity.
  intros H. now rewrite IH.
Qed.

(** A non-null result has unique values exactly when it has valid ones. *)
Lemma unique_zero_iff (q : Query) (layer : FeatureLayer)
    (field : string) (stats : FieldStats) :
  analyzeFieldValues q layer field = Some stats ->
  (uniqueCount stats = 0 <-> validCount stats = 0).
Proof.
  intros H. split; [|now apply (no_valid_values_no_buckets q layer field)].
  apply analyzeFieldValues_Some in H. destruct H as (features & _ & _ & ->).
  cbn [uniqueCount validCount]. rewrite keys_length. intros H0.
  apply length_zero_iff_nil in H0.
  destruct (validValues (fieldValues features field)) as [|v vs]; [reflexivity|].
  exfalso.
  assert (Hin : In (String v) (map fst (valueCount (v :: vs)))).
  { rewrite valueCount_keys. apply first_occurrences_In. now left. }
  rewrite H0 in Hin. destruct Hin.
Qed.



Lemma Forall2_mapWithIndex {A B C : Type} (R : B -> C -> Prop)
    (f : A -> nat -> B) (g : A -> nat -> C) (l : list A) (j : nat) :
  (forall i x, nth_error l i = Some x -> R (f x (j + i)) (g x (j + i))) ->
  Forall2 R (mapWithIndex f j l) (mapWithIndex g j l).
Proof.
  revert j. induction l as [|x l IH]; intros j H; simpl; constructor.
  - specialize (H 0 x eq_refl). now rewrite Nat.add_0_r in H.
  - apply IH. intros i y Hy. specialize (H (S i) y Hy).
    now replace (j + 1 + i) with (j + S i) by lia.
Qed.

Lemma legend_items_values (colors : list (list number))
    (l : list (string * nat)) (j : nat) :
  map (fun item => (snd (fst item), snd item))
      (mapWithIndex (fun entry index =>
                       (firstn 3 (nth index colors []), fst entry, snd entry)) j l)
  = l.
Proof.
  revert j. induction l as [|[v c] l IH]; intros j; simpl; [reflexivity|].
  now rewrite IH.
Qed.

Lemma palette_triples : Forall (fun c => firstn 3 c = c) palette.
Proof. repeat constructor. Qed.

(** X11: the legend mirrors the renderer built from the same statistics:
    it has one item per rule, in the same order, and item and rule agree on
    the colour and the value, the rule's label being the item's value
    followed by its count in brackets.  The legend title names the alias of
    the classified field, its name when the alias is empty, and the raw
    field name when the layer has no such field. *)
Theorem X11_legend_mirrors_renderer
    (layer : FeatureLayer) (stats : FieldStats) (field : string) :
  let colors := generateColors (List.length (sortedValues stats)) in
  let legend := createMapLegend layer stats colors field in
  Forall2 mirrors (legend_items legend)
    (rules (classificationRenderer stats (geometryType layer) field))
  /\ map (fun item => (snd (fst item), snd item)) (legend_items legend)
     = sortedValues stats
  /\ legend_validCount legend = validCount stats
  /\ legend_fieldLabel legend
     = match find (fun f => String.eqb (name f) field) (fields layer) with
       | Some f => if String.eqb (alias f) "" then name f else alias f
       | None => field
       end.
Proof.
  intros colors legend. subst legend colors. cbn [createMapLegend legend_items
    legend_validCount legend_fieldLabel classificationRenderer rules].
  split; [|split; [|split; reflexivity]].
  - apply Forall2_mapWithIndex. intros i [value count] Hi. simpl.
    unfold uniqueValueInfo, mirrors. cbn [info_symbol info_value info_label].
    rewrite classSymbol_color. split; [|split; reflexivity].
    rewrite generateColors_nth by (apply nth_error_Some; congruence).
    pose proof palette_triples as Hp. rewrite Forall_forall in Hp.
    apply Hp, nth_In. apply Nat.mod_upper_bound. discriminate.
  - apply legend_items_values.
Qed.

(* ================================================================== *)
(** * Resetting the renderer *)
(* ================================================================== *)

Lemma indexOf_bounds (l : list nat) (x : nat) :
  (-1 <= indexOf l x < Z.of_nat (List.length l))%Z.
Proof.
  induction l as [|y l IH]; simpl; [lia|].
  destruct (x =? y); [lia|].
  destruct (indexOf l x <? 0)%Z eqn:E; [lia|]. apply Z.ltb_ge in E. lia.
Qed.

Lemma indexOf_absent (l : list nat) (x : nat) :
  ~ In x l <-> indexOf l x = (-1)%Z.
Proof.
  induction l as [|y l IH]; simpl; [tauto|].
  destruct (x =? y) eqn:E.
  - apply Nat.eqb_eq in E. subst. split; [intros H; exfalso; auto | discriminate].
  - apply Nat.eqb_neq in E. pose proof (indexOf_bounds l x) as Hb.
    destruct (indexOf l x <? 0)%Z eqn:El.
    + apply Z.ltb_lt in El. assert (Hm : indexOf l x = (-1)%Z) by lia.
      apply IH in Hm. split; [reflexivity|]. intros _ [H|H]; [congruence | auto].
    + apply Z.ltb_ge in El. split; [|lia].
      intros H. exfalso. assert (Hn : ~ In x l) by tauto. apply IH in Hn. lia.
Qed.

Lemma indexOf_seq (a n x : nat) :
  a <= x < a + n -> indexOf (seq a n) x = Z.of_nat (x - a).
Proof.
  revert a. induction n as [|n IH]; intros a H; [lia|]. simpl.
  destruct (x =? a) eqn:E.
  - apply Nat.eqb_eq in E. subst. now rewrite Nat.sub_diag.
  - apply Nat.eqb_neq in E. rewrite IH by lia.
    replace (Z.of_nat (x - S a) <? 0)%Z with false by (symmetry; apply Z.ltb_ge; lia).
    lia.
Qed.

Lemma layerColor_found (n : nat) :
  layerColor (Z.of_nat n)
  = Some (nth (n mod List.length layerColors) layerColors []).
Proof.
  unfold layerColor.
  rewrite Z.rem_mod_nonneg by (simpl; lia).
  rewrite <- Nat2Z.inj_mod.
  replace (Z.of_nat (n mod List.length layerColors) <? 0)%Z with false
    by (symmetry; apply Z.ltb_ge; lia).
  rewrite Nat2Z.id. apply nth_error_nth'.
  apply Nat.mod_upper_bound. discriminate.
Qed.

Lemma layerColor_missing : layerColor (-1) = None.
Proof. reflexivity. Qed.

(** The symbol of a reset is the symbol the layer was uploaded with. *)
Lemma resetSymbol_found (n : nat) (geometryType : string) :
  In geometryType ["point"; "polyline"; "polygon"] ->
  exists symbol,
    resetSymbol geometryType (layerColor (Z.of_nat n)) = Returned symbol
    /\ SimpleRenderer symbol = uploadRenderer n geometryType.
Proof.
  rewrite layerColor_found.
  intros [<-|[<-|[<-|[]]]]; eexists; split; reflexivity.
Qed.

(** X12: resetting the current layer when it is the [n]-th uploaded layer
    and of geometry type point, polyline or polygon gives that layer the
    simple renderer an upload with [n] earlier layers creates, touches no
    other layer and nothing but the renderer, hides the legend and closes
    the panel, and shows no alert.  Without a current layer the reset does
    nothing at all. *)
Theorem X12_reset_gives_upload_renderer
    (uploaded : list nat) (p : Page) (ref n : nat) (layer : FeatureLayer) :
  currentClassificationLayer p = Some ref ->
  nth_error (layers p) ref = Some layer ->
  indexOf uploaded ref = Z.of_nat n ->
  In (geometryType layer) ["point"; "polyline"; "polygon"] ->
  exists p',
    resetLayerRenderer uploaded p = ResetDone p'
    /\ nth_error (layers p') ref
       = Some (set_renderer layer (uploadRenderer n (geometryType layer)))
    /\ (forall r, r <> ref -> nth_error (layers p') r = nth_error (layers p) r)
    /\ Forall2 same_but_renderer (layers p) (layers p')
    /\ alerts p' = alerts p
    /\ mapLegend_hidden p' = true
    /\ classificationPanel_hidden p' = true
    /\ mapLegend p' = mapLegend p
    /\ currentClassificationLayer p' = Some ref
    /\ forall p0, currentClassificationLayer p0 = None ->
                  resetLayerRenderer uploaded p0 = ResetDone p0.
Proof.
  intros Hc Hl Hi Hg. unfold resetLayerRenderer. rewrite Hc, Hl, Hi.
  destruct (resetSymbol_found n _ Hg) as (symbol & -> & Hs).
  eexists. split; [reflexivity|]. cbn. rewrite Hs.
  split; [rewrite assign_renderer_nth, Nat.eqb_refl, Hl; reflexivity|].
  split.
  { intros r Hr. rewrite assign_renderer_nth.
    apply Nat.eqb_neq in Hr. now rewrite Hr. }
  split; [apply assign_renderer_same|].
  repeat split; try assumption.
  intros p0 H0. now rewrite H0.
Qed.

(** X12 at a classified polygon layer that was the first upload. *)
Lemma X12_witness :
  let p := applyFieldClassification sourceQuery
             (samplePage (sampleLayer [VStr "a"; VStr "b"]) "f") in
  exists p',
    resetLayerRenderer [0] p = ResetDone p'
    /\ layers p' = [sampleLayer [VStr "a"; VStr "b"]].
Proof.
  intros p.
  destruct (X12_reset_gives_upload_renderer [0] p 0 0
              (set_renderer (sampleLayer [VStr "a"; VStr "b"])
                 (classificationRenderer
                    {| totalFeatures := 2; validCount := 2; uniqueCount := 2;
                       sortedValues := [("a", 1); ("b", 1)]; fieldName := "f" |}
                    "polygon" "f"))
              eq_refl eq_refl eq_refl) as (p' & Hr & _).
  - simpl. auto.
  - exists p'. split; [exact Hr|].
    vm_compute in Hr. injection Hr as <-. reflexivity.
Defined.

(** X13: a layer that is not among [uploadedLayers] has no reset colour.
    If its geometry type is neither point nor polyline, the reset fails in
    its [catch] branch and the page, renderer included, stays exactly as it
    was. *)
Theorem X13_reset_fails_for_unlisted_polygon
    (uploaded : list nat) (p : Page) (ref : nat) (layer : FeatureLayer) :
  currentClassificationLayer p = Some ref ->
  nth_error (layers p) ref = Some layer ->
  ~ In ref uploaded ->
  geometryType layer <> "point" -> geometryType layer <> "polyline" ->
  resetLayerRenderer uploaded p = ResetFailed p.
Proof.
  intros Hc Hl Hin Hp Hpl. unfold resetLayerRenderer. rewrite Hc, Hl.
  apply indexOf_absent in Hin. rewrite Hin, layerColor_missing.
  unfold resetSymbol. apply String.eqb_neq in Hp, Hpl. now rewrite Hp, Hpl.
Qed.

(** X13 at a polygon layer on a page with no uploaded layer registered. *)
Lemma X13_witness :
  resetLayerRenderer [] (samplePage (sampleLayer [VStr "a"]) "f")
  = ResetFailed (samplePage (sampleLayer [VStr "a"]) "f").
Proof.
  apply (X13_reset_fails_for_unlisted_polygon []
           (samplePage (sampleLayer [VStr "a"]) "f") 0 (sampleLayer [VStr "a"]));
    try reflexivity; try discriminate.
  intros [].
Defined.

(* ================================================================== *)
(** * Uploads and the layers of the map *)
(* ================================================================== *)

Lemma geometryTypeOf_known (fs : list Feature) :
  In (geometryTypeOf fs) ["point"; "polyline"; "polygon"].
Proof.
  unfold geometryTypeOf. destruct fs as [|[[g|] p] rest]; simpl; auto.
  destruct (_ || _); simpl; auto. destruct (_ || _); simpl; auto.
Qed.

Lemma geoJSONLayer_Returned (uploaded : nat) (fs : list Feature)
    (layerName : string) (layer : FeatureLayer) :
  geoJSONLayer uploaded fs layerName = Returned layer ->
  exists graphics fields,
    graphicsOf fs = Returned graphics /\ fieldsOf fs = Returned fields
    /\ layer = {| source := graphics;
                  fields := fields;
                  objectIdField := "OBJECTID";
                  geometryType := geometryTypeOf fs;
                  title := if String.eqb layerName "" then "GeoJSON Layer"
                           else layerName;
                  popupEnabled := false;
                  renderer := uploadRenderer uploaded (geometryTypeOf fs) |}.
Proof.
  unfold geoJSONLayer.
  destruct (graphicsOf fs) as [graphics|]; simpl; [|discriminate].
  destruct (fieldsOf fs) as [fields|]; simpl; [|discriminate].
  intros [= <-]. now exists graphics, fields.
Qed.

(** What a successful upload returns. *)
Lemma addGeoJSONToMap_Returned (fs : list Feature) (layerName : string)
    (w w' : Workspace) :
  addGeoJSONToMap fs layerName w = Returned w' ->
  exists layer,
    geoJSONLayer (List.length (uploadedLayers w)) fs layerName = Returned layer
    /\ w' = {| mapLayers := mapLayers w ++ [layer];
               uploadedLayers := uploadedLayers w ++ [List.length (mapLayers w)] |}.
Proof.
  unfold addGeoJSONToMap.
  destruct (geoJSONLayer (List.length (uploadedLayers w)) fs layerName)
    as [layer|]; simpl; [|discriminate].
  intros [= <-]. now exists layer.
Qed.

(** An upload keeps the references in step with the positions. *)
Lemma upload_keeps_order (fs : list Feature) (layerName : string)
    (w w' : Workspace) :
  addGeoJSONToMap fs layerName w = Returned w' ->
  uploads_in_order w -> uploads_in_order w'.
Proof.
  intros H [Hu Hg]. apply addGeoJSONToMap_Returned in H.
  destruct H as (layer & Hl & ->). apply geoJSONLayer_Returned in Hl.
  destruct Hl as (graphics & made & _ & _ & ->).
  unfold uploads_in_order. cbn [mapLayers uploadedLayers]. split.
  - rewrite Hu, length_app, length_seq. simpl.
    rewrite Nat.add_1_r, seq_S. reflexivity.
  - apply Forall_app. split; [exact Hg|]. constructor; [|constructor].
    apply geometryTypeOf_known.
Qed.

(** An upload leaves every layer with its upload renderer. *)
Lemma upload_keeps_renderers (fs : list Feature) (layerName : string)
    (w w' : Workspace) :
  addGeoJSONToMap fs layerName w = Returned w' ->
  uploads_in_order w -> upload_renderers (mapLayers w) ->
  upload_renderers (mapLayers w').
Proof.
  intros H [Hu _] Hr. apply addGeoJSONToMap_Returned in H.
  destruct H as (layer & Hl & ->). apply geoJSONLayer_Returned in Hl.
  destruct Hl as (graphics & made & _ & _ & ->).
  intros i l Hi. cbn [mapLayers] in Hi.
  destruct (Nat.lt_ge_cases i (List.length (mapLayers w))) as [Hlt|Hge].
  - rewrite nth_error_app1 in Hi by exact Hlt. now apply Hr.
  - rewrite nth_error_app2 in Hi by exact Hge.
    destruct (i - List.length (mapLayers w)) as [|k] eqn:Ek; simpl in Hi.
    + injection Hi as <-. cbn [renderer geometryType].
      rewrite Hu, length_seq. f_equal. lia.
    + destruct k; discriminate.
Qed.

(** X14: a GeoJSON upload that succeeds appends exactly one layer to the
    map and its reference to [uploadedLayers], leaving the earlier layers
    as they were; the new layer's renderer is the upload renderer for the
    number of layers uploaded before it.  If the uploads so far were all of
    this kind, so that references follow positions and every layer's
    geometry type is point, polyline or polygon, the same holds after the
    upload.  An upload that throws adds nothing. *)
Theorem X14_upload_appends_one_layer
    (fs : list Feature) (layerName : string) (w : Workspace) :
  match addGeoJSONToMap fs layerName w with
  | Returned w' =>
      exists layer,
        geoJSONLayer (List.length (uploadedLayers w)) fs layerName = Returned layer
        /\ mapLayers w' = mapLayers w ++ [layer]
        /\ uploadedLayers w' = uploadedLayers w ++ [List.length (mapLayers w)]
        /\ renderer layer
           = uploadRenderer (List.length (uploadedLayers w)) (geometryType layer)
        /\ (uploads_in_order w -> uploads_in_order w')
        /\ (uploads_in_order w -> upload_renderers (mapLayers w) ->
            upload_renderers (mapLayers w'))
  | Thrown =>
      geoJSONLayer (List.length (uploadedLayers w)) fs layerName = Thrown
  end.
Proof.
  destruct (addGeoJSONToMap fs layerName w) as [w'|] eqn:E.
  - destruct (addGeoJSONToMap_Returned _ _ _ _ E) as (layer & Hl & Hw).
    exists layer. split; [exact Hl|].
    split; [now rewrite Hw|]. split; [now rewrite Hw|]. split.
    + apply geoJSONLayer_Returned in Hl.
      now destruct Hl as (graphics & made & _ & _ & ->).
    + split; [now apply (upload_keeps_order fs layerName)|].
      now apply (upload_keeps_renderers fs layerName).
  - unfold addGeoJSONToMap in E.
    now destruct (geoJSONLayer (List.length (uploadedLayers w)) fs layerName).
Qed.

Lemma apply_layers (q : Query) (p : Page) :
  currentClassificationLayer (applyFieldClassification q p)
  = currentClassificationLayer p
  /\ (layers (applyFieldClassification q p) = layers p
      \/ exists ref rd,
           currentClassificationLayer p = Some ref
           /\ layers (applyFieldClassification q p)
              = assign_renderer (layers p) ref rd).
Proof.
  unfold applyFieldClassification.
  destruct (currentClassificationLayer p) as [ref|] eqn:Ec;
    [|cbn; rewrite Ec; auto].
  destruct (String.eqb (fieldSelect_value p) ""); [cbn; rewrite Ec; auto|].
  cbn [layers set_applyBtn].
  destruct (nth_error (layers p) ref) as [layer|]; [|cbn; rewrite Ec; auto].
  unfold classify.
  destruct (analyzeFieldValues q layer (fieldSelect_value p)) as [stats|];
    [|cbn; rewrite Ec; auto].
  destruct (uniqueCount stats =? 0); cbn; rewrite Ec; [auto|].
  split; [reflexivity|]. right. eauto.
Qed.

(** X15: on a map whose layers are GeoJSON uploads, each still knowing its
    place and holding its upload renderer, pressing Apply and then Reset
    always ends with all layers exactly as they were, whatever the apply
    did: alerted, or replaced the renderer of the current layer. *)
Theorem X15_apply_then_reset_restores_layers
    (q : Query) (w : Workspace) (p : Page) :
  uploads_in_order w ->
  upload_renderers (mapLayers w) ->
  layers p = mapLayers w ->
  (forall ref, currentClassificationLayer p = Some ref ->
               ref < List.length (mapLayers w)) ->
  layers (reset_page (resetLayerRenderer (uploadedLayers w)
                        (applyFieldClassification q p)))
  = mapLayers w.
Proof.
  intros [Hu Hg] Hr Hl Hb.
  destruct (apply_layers q p) as [Hc Hcase].
  set (p1 := applyFieldClassification q p) in *.
  unfold resetLayerRenderer. rewrite Hc.
  destruct (currentClassificationLayer p) as [ref|] eqn:Ec.
  2:{ simpl. destruct Hcase as [H|(ref & rd & H & _)]; congruence. }
  specialize (Hb ref eq_refl).
  destruct (nth_error (mapLayers w) ref) as [l|] eqn:El;
    [|apply nth_error_None in El; lia].
  assert (Hgl : In (geometryType l) ["point"; "polyline"; "polygon"]).
  { rewrite Forall_forall in Hg. eapply Hg, nth_error_In, El. }
  assert (H1 : exists rd, layers p1 = assign_renderer (mapLayers w) ref rd).
  { destruct Hcase as [H|(ref' & rd & Href & H)].
    - exists (renderer l). rewrite H, Hl. symmetry. now apply assign_renderer_own.
    - injection Href as <-. exists rd. now rewrite H, Hl. }
  destruct H1 as [rd H1]. rewrite H1, assign_renderer_nth, Nat.eqb_refl, El.
  cbn [option_map set_renderer geometryType].
  rewrite Hu, indexOf_seq by lia. rewrite Nat.sub_0_r.
  destruct (resetSymbol_found ref _ Hgl) as (symbol & -> & Hs).
  cbn [reset_page layers]. rewrite assign_renderer_twice, Hs.
  rewrite <- (Hr ref l El). now apply assign_renderer_own.
Qed.

(** X15 after one upload of two points named "a" and "b", classified by
    name and then reset. *)
Lemma X15_witness :
  let fs := [pointFeature 1 1 (Some [("name", VStr "a")]);
             pointFeature 2 2 (Some [("name", VStr "b")])] in
  exists w,
    addGeoJSONToMap fs "towns" emptyWorkspace = Returned w
    /\ let p := openClassificationPanel 0 (closedPage (mapLayers w)) in
       let chosen :=
         {| fieldSelect_value := "name";
            currentClassificationLayer := currentClassificationLayer p;
            layers := layers p; alerts := alerts p; applyBtn := applyBtn p;
            mapLegend := mapLegend p; mapLegend_hidden := mapLegend_hidden p;
            classificationPanel_hidden := classificationPanel_hidden p |} in
       layers (applyFieldClassification sourceQuery chosen) <> mapLayers w
       /\ layers (reset_page (resetLayerRenderer (uploadedLayers w)
                                (applyFieldClassification sourceQuery chosen)))
          = mapLayers w.
Proof.
  intros fs.
  destruct (addGeoJSONToMap fs "towns" emptyWorkspace) as [w|] eqn:E;
    [|vm_compute in E; discriminate].
  exists w. split; [reflexivity|]. intros p chosen.
  assert (Hstart : uploads_in_order emptyWorkspace) by (split; [reflexivity | constructor]).
  assert (Hnone : upload_renderers (mapLayers emptyWorkspace))
    by (intros i l Hi; destruct i; discriminate).
  pose proof (upload_keeps_order _ _ _ _ E Hstart) as Hord.
  pose proof (upload_keeps_renderers _ _ _ _ E Hstart Hnone) as Hren.
  destruct (addGeoJSONToMap_Returned _ _ _ _ E) as (layer & _ & Hw).
  split.
  - vm_compute in E. injection E as <-. vm_compute. discriminate.
  - apply X15_apply_then_reset_restores_layers; auto.
    intros ref Href. injection Href as <-. rewrite Hw. simpl. lia.
Defined.

(* ================================================================== *)
(** * The classification panel *)
(* ================================================================== *)

Lemma underscores_to_spaces_empty (s : string) :
  underscores_to_spaces s = "" -> s = "".
Proof. destruct s; simpl; [reflexivity | discriminate]. Qed.

Lemma fieldOptions_of_typed (more : list Field) :
  Forall (fun f => In (field_type f) ["string"; "double"; "integer"]
                   /\ alias f = underscores_to_spaces (name f)) more ->
  map (fun f => (name f, if String.eqb (alias f) "" then name f else alias f))
      (filter (fun f => String.eqb (field_type f) "double"
                        || String.eqb (field_type f) "integer"
                        || String.eqb (field_type f) "string") more)
  = map (fun f => (name f, underscores_to_spaces (name f))) more.
Proof.
  induction 1 as [|f more [Ht Ha] Hm IH]; simpl; [reflexivity|].
  assert (Hkeep : String.eqb (field_type f) "double"
                  || String.eqb (field_type f) "integer"
                  || String.eqb (field_type f) "string" = true).
  { destruct Ht as [<-|[<-|[<-|[]]]]; reflexivity. }
  rewrite Hkeep. simpl. rewrite IH. f_equal. f_equal. rewrite Ha.
  destruct (String.eqb (underscores_to_spaces (name f)) "") eqn:E; [|reflexivity].
  apply String.eqb_eq in E. rewrite E.
  now apply underscores_to_spaces_empty in E.
Qed.

(** X16: for a layer made from GeoJSON the field select offers FID and then
    one option for each property key of the first feature, in property
    order, captioned with the key's underscores turned into spaces; the
    object-id field OBJECTID created by the upload is not offered.  Opening
    the panel makes the layer current and leaves no field chosen, so Apply
    pressed right after it only asks to choose a field and changes
    nothing else. *)
Theorem X16_panel_offers_property_fields
    (uploaded : nat) (fs : list Feature) (layerName : string) (layer : FeatureLayer) :
  geoJSONLayer uploaded fs layerName = Returned layer ->
  fieldOptions layer
  = ("FID", "FID")
    :: map (fun key => (key, underscores_to_spaces key)) (firstKeys fs)
  /\ List.length (fieldOptions layer) + 1 = List.length (fields layer)
  /\ forall q ref p,
       let opened := openClassificationPanel ref p in
       currentClassificationLayer opened = Some ref
       /\ classificationPanel_hidden opened = false
       /\ applyFieldClassification q opened = show_alert AlertChooseField opened.
Proof.
  intros H. apply geoJSONLayer_Returned in H.
  destruct H as (graphics & made & _ & Hf & ->).
  apply fieldsOf_shape in Hf. destruct Hf as (more & -> & Hn & Ht).
  unfold fieldOptions. cbn [fields filter field_type String.eqb Ascii.eqb
                            Bool.eqb orb map name alias].
  rewrite (fieldOptions_of_typed more Ht), <- Hn, map_map.
  split; [reflexivity|]. split.
  - simpl. rewrite !length_map. lia.
  - intros q ref p. repeat split.
Qed.

(** X16 at a layer of one point with the properties plot_no and owner. *)
Lemma X16_witness :
  exists layer,
    geoJSONLayer 0
      [pointFeature 1 1 (Some [("plot_no", VNum (of_Z 7)); ("owner", VStr "x")])]
      "plots" = Returned layer
    /\ fieldOptions layer
       = [("FID", "FID"); ("plot_no", "plot no"); ("owner", "owner")].
Proof.
  eexists. split; [reflexivity|].
  exact (proj1 (X16_panel_offers_property_fields 0
                  [pointFeature 1 1
                     (Some [("plot_no", VNum (of_Z 7)); ("owner", VStr "x")])]
                  "plots" _ eq_refl)).
Defined.

(* ================================================================== *)
(** * Accepting a file *)
(* ================================================================== *)

Lemma endsWith_suffix (s suffix : string) :
  endsWith s suffix = true <-> exists front, s = (front ++ suffix)%string.
Proof.
  induction s as [|c s IH]; cbn [endsWith].
  - rewrite orb_false_r, String.eqb_eq. split.
    + intros <-. now exists "".
    + intros (front & H). destruct front; simpl in H; [now symmetry | discriminate].
  - rewrite orb_true_iff, String.eqb_eq, IH. split.
    + intros [<-|(front & ->)]; [now exists "" | now exists (String.String c front)].
    + intros (front & H). destruct front as [|c' front]; simpl in H.
      * now left.
      * right. injection H as _ H. now exists front.
Qed.

(** X17: a file goes on to be processed only if it is no larger than
    50 * 1024 * 1024 bytes, a file of exactly that size included, and only
    if its name, lower-cased, ends in .zip on the shapefile tab, and in
    .json or .geojson on the GeoJSON tab.  A wrong extension is reported
    whatever the size; a file that is too large is always turned down. *)
Theorem X17_upload_gate (name : string) (size : N) :
  let lower := toLowerCase name in
  (forall fileType,
      handleFileUpload name size fileType = RunShapefile
      <-> fileType = "shapefile"
          /\ (exists front, lower = (front ++ ".zip")%string)
          /\ (size <= sizeLimit)%N)
  /\ (forall fileType,
        handleFileUpload name size fileType = RunGeoJSON
        <-> fileType = "geojson"
            /\ (exists front, lower = (front ++ ".json")%string
                              \/ lower = (front ++ ".geojson")%string)
            /\ (size <= sizeLimit)%N)
  /\ ((forall front, lower <> (front ++ ".zip")%string) ->
      handleFileUpload name size "shapefile" = Rejected SelectZipFile)
  /\ ((forall front, lower <> (front ++ ".json")%string
                     /\ lower <> (front ++ ".geojson")%string) ->
      handleFileUpload name size "geojson" = Rejected SelectJsonFile)
  /\ ((sizeLimit < size)%N ->
      forall fileType, exists status,
        handleFileUpload name size fileType = Rejected status).
Proof.
  intros lower.
  assert (Hsize : (50 * 1024 * 1024 <? size)%N = false <-> (size <= sizeLimit)%N).
  { unfold sizeLimit. rewrite N.ltb_ge. tauto. }
  assert (Hzip : endsWith lower ".zip" = true
                 <-> exists front, lower = (front ++ ".zip")%string)
    by apply endsWith_suffix.
  assert (Hjson : endsWith lower ".json" = true
                  <-> exists front, lower = (front ++ ".json")%string)
    by apply endsWith_suffix.
  assert (Hgeo : endsWith lower ".geojson" = true
                 <-> exists front, lower = (front ++ ".geojson")%string)
    by apply endsWith_suffix.
  unfold handleFileUpload. fold lower.
  split; [|split; [|split; [|split]]].
  - intros fileType. destruct (String.eqb fileType "shapefile") eqn:Es.
    + apply String.eqb_eq in Es. subst fileType.
      destruct (endsWith lower ".zip") eqn:Ez; cbn [negb andb].
      * destruct (50 * 1024 * 1024 <? size)%N eqn:El.
        -- split; [discriminate|]. intros (_ & _ & H). apply Hsize in H. congruence.
        -- split; [|reflexivity]. intros _. repeat split; [now apply Hzip | now apply Hsize].
      * split; [discriminate|]. intros (_ & H & _). apply Hzip in H. congruence.
    + apply String.eqb_neq in Es.
      destruct (String.eqb fileType "geojson").
      * destruct (negb (endsWith lower ".json") && negb (endsWith lower ".geojson"));
          [|destruct (50 * 1024 * 1024 <? size)%N];
          (split; [discriminate | intros (H & _); congruence]).
      * destruct (50 * 1024 * 1024 <? size)%N;
          (split; [discriminate | intros (H & _); congruence]).
  - intros fileType. destruct (String.eqb fileType "shapefile") eqn:Es.
    + apply String.eqb_eq in Es. subst fileType.
      destruct (negb (endsWith lower ".zip"));
        [|destruct (50 * 1024 * 1024 <? size)%N];
        (split; [discriminate | intros (H & _); discriminate]).
    + destruct (String.eqb fileType "geojson") eqn:Eg.
      * apply String.eqb_eq in Eg. subst fileType.
        destruct (endsWith lower ".json") eqn:Ej,
                 (endsWith lower ".geojson") eqn:Egj; cbn [negb andb].
        -- destruct (50 * 1024 * 1024 <? size)%N eqn:El.
           ++ split; [discriminate|]. intros (_ & _ & H). apply Hsize in H. congruence.
           ++ split; [|reflexivity]. intros _. split; [reflexivity|]. split; [|now apply Hsize].
              destruct Hjson as [Hj _]; destruct (Hj eq_refl) as [front Hf]. eauto.
        -- destruct (50 * 1024 * 1024 <? size)%N eqn:El.
           ++ split; [discriminate|]. intros (_ & _ & H). apply Hsize in H. congruence.
           ++ split; [|reflexivity]. intros _. split; [reflexivity|]. split; [|now apply Hsize].
              destruct Hjson as [Hj _]; destruct (Hj eq_refl) as [front Hf]. eauto.
        -- destruct (50 * 1024 * 1024 <? size)%N eqn:El.
           ++ split; [discriminate|]. intros (_ & _ & H). apply Hsize in H. congruence.
           ++ split; [|reflexivity]. intros _. split; [reflexivity|]. split; [|now apply Hsize].
              destruct Hgeo as [Hj _]; destruct (Hj eq_refl) as [front Hf]. eauto.
        -- split; [discriminate|]. intros (_ & (front & [H|H]) & _).
           ++ assert (false = true) by (apply Hjson; eauto). discriminate.
           ++ assert (false = true) by (apply Hgeo; eauto). discriminate.
      * apply String.eqb_neq in Eg.
        destruct (50 * 1024 * 1024 <? size)%N;
          (split; [discriminate | intros (H & _); congruence]).
  - intros Hno. cbn [String.eqb Ascii.eqb Bool.eqb].
    destruct (endsWith lower ".zip") eqn:Ez; [|reflexivity].
    destruct Hzip as [Hz _]. destruct (Hz eq_refl) as [front Hf].
    now destruct (Hno front).
  - intros Hno. cbn [String.eqb Ascii.eqb Bool.eqb].
    destruct (endsWith lower ".json") eqn:Ej.
    { destruct Hjson as [Hj _]. destruct (Hj eq_refl) as [front Hf].
      now destruct (Hno front). }
    destruct (endsWith lower ".geojson") eqn:Eg; [|reflexivity].
    destruct Hgeo as [Hj _]. destruct (Hj eq_refl) as [front Hf].
    now destruct (Hno front).
  - intros Hbig fileType.
    assert (El : (50 * 1024 * 1024 <? size)%N = true)
      by (apply N.ltb_lt; exact Hbig).
    rewrite El.
    destruct (String.eqb fileType "shapefile");
      [destruct (negb (endsWith lower ".zip")); eauto|].
    destruct (String.eqb fileType "geojson"); [|eauto].
    destruct (negb (endsWith lower ".json") && negb (endsWith lower ".geojson")); eauto.
Qed.

Lemma beforeFirstDot_prefix (s : string) :
  has_dot (beforeFirstDot s) = false
  /\ exists rest, s = (beforeFirstDot s ++ rest)%string.
Proof.
  induction s as [|c s [IHd (rest & IHr)]]; simpl.
  - split; [reflexivity | now exists ""].
  - destruct (Ascii.eqb c ".") eqn:E; simpl.
    + split; [reflexivity | now exists (String.String c s)].
    + rewrite E, IHd. split; [reflexivity|]. exists rest. now rewrite <- IHr.
Qed.

(** Building the layer throws exactly for the two reasons the graphics
    and the fields have. *)
Lemma geoJSONLayer_throws (uploaded : nat) (fs : list Feature) (layerName : string) :
  geoJSONLayer uploaded fs layerName = Thrown <-> cannot_convert fs.
Proof.
  unfold geoJSONLayer, cannot_convert, graphicsOf.
  pose proof (graphicsFrom_outcome fs 0) as Hg.
  pose proof (fieldsOf_throws fs) as Hf.
  destruct (graphicsFrom 0 fs) as [graphics|]; simpl.
  - destruct Hg as [Hall _]. rewrite forallb_forall in Hall.
    destruct (fieldsOf fs) as [made|]; simpl.
    + split; [discriminate|].
      intros [(f & Hin & Hm)|Hk].
      * specialize (Hall f Hin). rewrite Hm in Hall. discriminate.
      * apply Hf in Hk. discriminate.
    + split; [intros _; right; now apply Hf | reflexivity].
  - apply existsb_exists in Hg. split; [intros _; now left | reflexivity].
Qed.


Lemma get_after_copies (val : string -> value) (ks : list string)
    (acc : object value) (k : string) :
  get (fold_left (fun acc key => set acc key (val key)) ks acc) k
  = if existsb (String.eqb k) ks then Some (val k) else get acc k.
Proof.
  revert acc. induction ks as [|key ks IH]; intros acc; simpl; [reflexivity|].
  rewrite IH. destruct (existsb (String.eqb k) ks); [now rewrite orb_true_r|].
  rewrite orb_false_r. destruct (String.eqb k key) eqn:E.
  - apply String.eqb_eq in E. subst. apply get_set_same.
  - apply String.eqb_neq in E. now apply get_set_other.
Qed.


(* ================================================================== *)
(** * Clicks on the map *)
(* ================================================================== *)

Lemma find_first {A : Type} (p : A -> bool) (l : list A) (x : A) :
  find p l = Some x ->
  exists before after,
    l = before ++ x :: after /\ p x = true
    /\ Forall (fun y => p y = false) before.
Proof.
  induction l as [|a l IH]; simpl; [discriminate|].
  destruct (p a) eqn:E.
  - intros [= ->]. exists [], l. repeat split; [exact E | constructor].
  - intros H. destruct (IH H) as (before & after & -> & Hx & Hb).
    exists (a :: before), after. repeat split; [exact Hx | now constructor].
Qed.

(** X20: a click shows a hit on an uploaded layer whenever there is a
    usable one, however many hits on other layers come before it in the
    hit test, and among the uploaded hits the first; only when no usable
    hit lies on an uploaded layer is the first usable hit taken whose layer
    can be queried or whose graphic has attributes.  Nothing is picked
    exactly when no hit qualifies either way. *)
Theorem X20_uploaded_layers_win_the_click
    (uploaded : list nat) (results : list HitResult) :
  match pickTarget uploaded results with
  | Some (r, true) =>
      exists before after,
        results = before ++ r :: after
        /\ hit_usable r = true /\ hit_uploaded uploaded r = true
        /\ Forall (fun x => hit_usable x && hit_uploaded uploaded x = false) before
  | Some (r, false) =>
      (forall x, In x results -> hit_usable x && hit_uploaded uploaded x = false)
      /\ exists before after,
           results = before ++ r :: after
           /\ hit_usable r = true /\ hit_readable r = true
           /\ Forall (fun x => hit_usable x && hit_readable x = false) before
  | None =>
      forall x, In x results ->
        hit_usable x && hit_uploaded uploaded x = false
        /\ hit_usable x && hit_readable x = false
  end.
Proof.
  unfold pickTarget.
  destruct (find (fun r => hit_usable r && hit_uploaded uploaded r) results)
    as [r|] eqn:E1.
  - apply find_first in E1. destruct E1 as (before & after & -> & Hr & Hb).
    apply andb_true_iff in Hr. destruct Hr as [Hu Hup].
    exists before, after. auto.
  - pose proof (find_none _ _ E1) as Hnone.
    destruct (find (fun r => hit_usable r && hit_readable r) results)
      as [r|] eqn:E2.
    + split; [exact Hnone|].
      apply find_first in E2. destruct E2 as (before & after & -> & Hr & Hb).
      apply andb_true_iff in Hr. destruct Hr as [Hu Hre].
      exists before, after. auto.
    + intros x Hx. split; [now apply Hnone | now apply (find_none _ _ E2)].
Qed.
